(** * khal/aux.py: from command-line tokens to calendar events

    A shallow embedding of [khal/aux.py] (helper functions converting
    strings or lists of strings to date(time) or event objects) and the
    properties of its token-consuming parser, its end-before-start repair,
    its timezone and free-text handling and its quick constructor.

    Layout:
    - [Py]: the Python values the module computes with (exceptions,
      dates, times, [timedelta] arithmetic, string helpers);
    - [Externals]: the collaborators the module calls but does not define
      ([strptime], [pytz.timezone], the clock, [to_unicode], [random]);
    - the functions of [aux.py], in source order;
    - [Strptime]: an executable instance of the collaborators, used to run
      the functions on concrete command lines;
    - the properties. *)

From Stdlib Require Import ZArith List String Ascii Bool Lia.
Import ListNotations.

Set Implicit Arguments.

Local Open Scope string_scope.
Local Open Scope Z_scope.

(* ================================================================== *)
(** * Python values *)
(* ================================================================== *)

Module Py.

(** The exceptions that can leave the functions of this module.
    [pytz.UnknownTimeZoneError] and [UnicodeDecodeError] are only ever
    raised by the timezone lookup and are caught on the spot, so they
    show up as the [None] answer of the lookup instead. *)
Inductive exn : Type :=
| ValueError
| IndexError
| OverflowError
| TypeError
| FatalError.

Inductive res (A : Type) : Type :=
| Ok (a : A)
| Raise (e : exn).
Arguments Raise {A} e.

Definition exn_eqb (a b : exn) : bool :=
  match a, b with
  | ValueError, ValueError | IndexError, IndexError
  | OverflowError, OverflowError | TypeError, TypeError
  | FatalError, FatalError => true
  | _, _ => false
  end.

(** ** [datetime.date], [datetime.time], [datetime.datetime] *)

Record date : Type := mkdate { d_year : Z; d_month : Z; d_day : Z }.

Record time : Type :=
  mktime { t_hour : Z; t_minute : Z; t_second : Z; t_microsecond : Z }.

(** A naive [datetime]: a calendar date and a time of day. *)
Record datetime : Type := mkdt { dt_date : date; dt_time : time }.

Definition dt_year (x : datetime) : Z := d_year (dt_date x).

Definition is_leap (y : Z) : bool :=
  (y mod 4 =? 0) && (negb (y mod 100 =? 0) || (y mod 400 =? 0)).

Definition days_in_month (y m : Z) : Z :=
  if m =? 2 then (if is_leap y then 29 else 28)
  else if (m =? 4) || (m =? 6) || (m =? 9) || (m =? 11) then 30
  else 31.

(** [MINYEAR = 1], [MAXYEAR = 9999]. *)
Definition valid_date (d : date) : bool :=
  (1 <=? d_year d) && (d_year d <=? 9999) &&
  (1 <=? d_month d) && (d_month d <=? 12) &&
  (1 <=? d_day d) && (d_day d <=? days_in_month (d_year d) (d_month d)).

Definition valid_time (t : time) : bool :=
  (0 <=? t_hour t) && (t_hour t <? 24) &&
  (0 <=? t_minute t) && (t_minute t <? 60) &&
  (0 <=? t_second t) && (t_second t <? 60) &&
  (0 <=? t_microsecond t) && (t_microsecond t <? 1000000).

Definition valid_datetime (x : datetime) : bool :=
  valid_date (dt_date x) && valid_time (dt_time x).

(** The constructors check their arguments and raise [ValueError]. *)
Definition new_time (h m s us : Z) : res time :=
  let t := mktime h m s us in
  if valid_time t then Ok t else Raise ValueError.

Definition new_datetime (y m d h mi s us : Z) : res datetime :=
  let x := mkdt (mkdate y m d) (mktime h mi s us) in
  if valid_datetime x then Ok x else Raise ValueError.

(** [dtime( *args )]: the call sites pass (hour, minute). *)
Definition time_of_args (args : list Z) : res time :=
  match args with
  | [] => new_time 0 0 0 0
  | [h] => new_time h 0 0 0
  | [h; m] => new_time h m 0 0
  | [h; m; s] => new_time h m s 0
  | [h; m; s; us] => new_time h m s us
  | _ => Raise TypeError
  end.

(** [datetime( *args )]: year, month and day are required. *)
Definition datetime_of_args (args : list Z) : res datetime :=
  match args with
  | [y; m; d] => new_datetime y m d 0 0 0 0
  | [y; m; d; h] => new_datetime y m d h 0 0 0
  | [y; m; d; h; mi] => new_datetime y m d h mi 0 0
  | [y; m; d; h; mi; s] => new_datetime y m d h mi s 0
  | [y; m; d; h; mi; s; us] => new_datetime y m d h mi s us
  | _ => Raise TypeError
  end.

(** [x.timetuple()], as the sequence of its first six fields
    (year, month, day, hour, minute, second).  The weekday, the day of
    the year and the DST flag (indices 6 to 8) are never sliced by
    [aux.py] and are left out. *)
Definition timetuple (x : datetime) : list Z :=
  [ d_year (dt_date x); d_month (dt_date x); d_day (dt_date x);
    t_hour (dt_time x); t_minute (dt_time x); t_second (dt_time x) ].

(** [l[i:j]] for [0 <= i <= j]. *)
Definition slice {A : Type} (i j : nat) (l : list A) : list A :=
  firstn (j - i) (skipn i l).

(** [datetime.combine(d, t)]; when [d] is itself a [datetime] only its
    date is used, which is [combine (dt_date d) t]. *)
Definition combine (d : date) (t : time) : datetime := mkdt d t.

(** ** Ordering: Python compares naive values field by field *)

Definition lex (c1 c2 : comparison) : comparison :=
  match c1 with Eq => c2 | _ => c1 end.

Definition date_cmp (a b : date) : comparison :=
  lex (d_year a ?= d_year b)
      (lex (d_month a ?= d_month b) (d_day a ?= d_day b)).

Definition time_cmp (a b : time) : comparison :=
  lex (t_hour a ?= t_hour b)
      (lex (t_minute a ?= t_minute b)
           (lex (t_second a ?= t_second b)
                (t_microsecond a ?= t_microsecond b))).

Definition dt_cmp (a b : datetime) : comparison :=
  lex (date_cmp (dt_date a) (dt_date b)) (time_cmp (dt_time a) (dt_time b)).

Definition is_lt (c : comparison) : bool :=
  match c with Lt => true | _ => false end.

(** [a < b] on dates and on datetimes. *)
Definition date_lt (a b : date) : bool := is_lt (date_cmp a b).
Definition dt_lt (a b : datetime) : bool := is_lt (dt_cmp a b).

(** ** [timedelta] arithmetic *)

Definition next_day (d : date) : option date :=
  if d_day d <? days_in_month (d_year d) (d_month d)
  then Some (mkdate (d_year d) (d_month d) (d_day d + 1))
  else if d_month d <? 12
  then Some (mkdate (d_year d) (d_month d + 1) 1)
  else if d_year d <? 9999
  then Some (mkdate (d_year d + 1) 1 1)
  else None.

Definition prev_day (d : date) : option date :=
  if 1 <? d_day d
  then Some (mkdate (d_year d) (d_month d) (d_day d - 1))
  else if 1 <? d_month d
  then Some (mkdate (d_year d) (d_month d - 1)
                    (days_in_month (d_year d) (d_month d - 1)))
  else if 1 <? d_year d
  then Some (mkdate (d_year d - 1) 12 31)
  else None.

Fixpoint iter_opt {A : Type} (n : nat) (f : A -> option A) (a : A)
  : option A :=
  match n with
  | O => Some a
  | S k => match f a with
           | Some b => iter_opt k f b
           | None => None
           end
  end.

(** The date [n] days after [d] ([n] may be negative); leaving the
    range of representable dates raises [OverflowError]. *)
Definition shift_days (d : date) (n : Z) : res date :=
  match (if 0 <=? n then iter_opt (Z.to_nat n) next_day d
         else iter_opt (Z.to_nat (- n)) prev_day d) with
  | Some d' => Ok d'
  | None => Raise OverflowError
  end.

(** [x + timedelta(days=days, minutes=minutes)]. *)
Definition add_timedelta (x : datetime) (days minutes : Z) : res datetime :=
  let t := dt_time x in
  let total := t_hour t * 60 + t_minute t + minutes in
  match shift_days (dt_date x) (days + total / 1440) with
  | Ok d =>
      Ok (mkdt d (mktime ((total mod 1440) / 60) (total mod 60)
                         (t_second t) (t_microsecond t)))
  | Raise e => Raise e
  end.

(** ** Strings *)

(** [s.count(' ')]. *)
Fixpoint count_spaces (s : string) : nat :=
  match s with
  | EmptyString => O
  | String c s' =>
      if Ascii.eqb c " "%char then S (count_spaces s') else count_spaces s'
  end.

(** [sep.join(l)]. *)
Definition join (sep : string) (l : list string) : string :=
  String.concat sep l.

Fixpoint drop (n : nat) (s : string) : string :=
  match n, s with
  | O, _ => s
  | S k, String _ s' => drop k s'
  | S _, EmptyString => EmptyString
  end.

(** [s.split(sep, 1)] for a non-empty [sep]: the text before the first
    occurrence of [sep] and, when there is one, the text after it. *)
Fixpoint split_once (sep s : string) : string * option string :=
  if String.prefix sep s then (EmptyString, Some (drop (String.length sep) s))
  else match s with
       | EmptyString => (EmptyString, None)
       | String c s' =>
           let (a, b) := split_once sep s' in (String c a, b)
       end.

(** Truth value of an optional string argument ([None] and [''] are
    false). *)
Definition truthy (o : option string) : bool :=
  match o with
  | None => false
  | Some s => negb (String.eqb s EmptyString)
  end.

End Py.
Import Py.

Definition bind {A B : Type} (r : res A) (k : A -> res B) : res B :=
  match r with
  | Ok a => k a
  | Raise e => Raise e
  end.

Notation "x <- r ;; k" := (bind r (fun x => k))
  (at level 61, r at next level, right associativity).

(* ================================================================== *)
(** * The collaborators of the module *)
(* ================================================================== *)

(** What [aux.py] imports and calls but does not define.  The clock is
    read once per call: [today] stands for [datetime.today()],
    [date.today()] and [datetime.now()] alike. *)
Class Externals : Type := {
  (** a [pytz] timezone object *)
  tzinfo : Type;
  (** [datetime.strptime(s, fmt)]; [None] is its [ValueError] *)
  datetime_strptime : string -> string -> option datetime;
  (** [time.strptime(s, fmt)], the [struct_time] as the sequence of its
      leading fields (year, month, day, hour, minute, second); [None] is
      its [ValueError] *)
  time_strptime : string -> string -> option (list Z);
  (** [pytz.timezone(name)]; [None] stands for the two exceptions the
      caller catches, [UnknownTimeZoneError] and [UnicodeDecodeError] *)
  pytz_timezone : string -> option tzinfo;
  (** [khal.compat.to_unicode(text, encoding)] *)
  to_unicode : string -> string -> string;
  (** the clock during the call *)
  today : datetime;
  (** the clock when the module was loaded: the default value of
      [guessdatetimefstr]'s [default_day] is evaluated then *)
  import_today : datetime;
  (** [random.choice(seq)] at the i-th draw *)
  random_choice : nat -> string -> ascii
}.

(* ================================================================== *)
(** * khal/aux.py *)
(* ================================================================== *)

Section Aux.

Context {X : Externals}.

(** A function working on the shared token list: it gets the list and
    leaves it as it is when it returns or raises. *)
Definition parser (A : Type) : Type := list string -> res A * list string.

(** [date_list.pop(0)], [n] times. *)
Fixpoint pop_front (n : nat) : parser unit :=
  fun date_list =>
    match n with
    | O => (Ok tt, date_list)
    | S k =>
        match date_list with
        | [] => (Raise IndexError, [])
        | _ :: rest => pop_front k rest
        end
    end.

(** [timefstr(date_list, timeformat)] *)
Definition timefstr (timeformat : string) : parser datetime :=
  fun date_list =>
    match date_list with
    | [] => (Raise IndexError, date_list)
    | tok :: rest =>
        match time_strptime tok timeformat with
        | None => (Raise ValueError, date_list)
        | Some time_start =>
            match time_of_args (slice 3 5 time_start) with
            | Raise e => (Raise e, date_list)
            | Ok time_start =>
                let day_start := dt_date today in
                let dtstart := combine day_start time_start in
                (Ok dtstart, rest)
            end
        end
    end.

(** [datetimefstr(date_list, dtformat)] *)
Definition datetimefstr (dtformat : string) : parser datetime :=
  fun date_list =>
    let parts := (count_spaces dtformat + 1)%nat in
    let dtstring := join " " (slice 0 parts date_list) in
    match datetime_strptime dtstring dtformat with
    | None => (Raise ValueError, date_list)
    | Some dtstart =>
        match pop_front parts date_list with
        | (Ok _, rest) => (Ok dtstart, rest)
        | (Raise e, rest) => (Raise e, rest)
        end
    end.

(** The [locale] dictionary built by [construct_event]. *)
Record locale : Type := mklocale {
  timeformat : string;
  datetimeformat : string;
  longdatetimeformat : string;
  dateformat : string;
  longdateformat : string
}.

(** [timefstr_day], local to [guessdatetimefstr]: the date comes from
    [default_day], hour and minute from the token. *)
Definition timefstr_day (default_day : datetime) (timeformat : string)
  : parser datetime :=
  fun date_list =>
    match timefstr timeformat date_list with
    | (Ok date, rest) =>
        (datetime_of_args (slice 0 3 (timetuple default_day)
                           ++ slice 3 5 (timetuple date)), rest)
    | (Raise e, rest) => (Raise e, rest)
    end.

(** [datefstr_year], local to [guessdatetimefstr]: the year comes from
    [default_day], the rest from the tokens. *)
Definition datefstr_year (default_day : datetime) (dateformat : string)
  : parser datetime :=
  fun date_list =>
    match datetimefstr dateformat date_list with
    | (Ok date, rest) =>
        (datetime_of_args (slice 0 1 (timetuple default_day)
                           ++ slice 1 5 (timetuple date)), rest)
    | (Raise e, rest) => (Raise e, rest)
    end.

(** The five grammars, in the order of the source, each with its
    [all_day] flag. *)
Definition grammars (loc : locale) (default_day : datetime)
  : list (parser datetime * bool) :=
  [ (datefstr_year default_day (datetimeformat loc), false);
    (datetimefstr (longdatetimeformat loc), false);
    (timefstr_day default_day (timeformat loc), false);
    (datefstr_year default_day (dateformat loc), true);
    (datetimefstr (longdateformat loc), true) ].

(** The [for ... try ... except ValueError: pass] loop followed by
    [raise ValueError()]: any other exception leaves the loop. *)
Fixpoint first_match (gs : list (parser datetime * bool))
  : parser (datetime * bool) :=
  fun dtime_list =>
    match gs with
    | [] => (Raise ValueError, dtime_list)
    | (fn, all_day) :: gs' =>
        match fn dtime_list with
        | (Ok dtstart, rest) => (Ok (dtstart, all_day), rest)
        | (Raise ValueError, rest) => first_match gs' rest
        | (Raise e, rest) => (Raise e, rest)
        end
    end.

(** [guessdatetimefstr(dtime_list, locale, default_day)] *)
Definition guessdatetimefstr (loc : locale) (default_day : datetime)
  : parser (datetime * bool) :=
  first_match (grammars loc default_day).

(** What a call of [datefstr] ends in: the date it returns, the
    [InvalidDate] it raises, or another exception passing through. *)
Inductive datefstr_result : Type :=
| Returned (d : date)
| InvalidDate (message : string)
| Propagated (e : exn).

Definition double_quote : string := String (ascii_of_nat 34) EmptyString.

Definition msg_invalid_date (datestr : string) : string :=
  (double_quote ++ datestr ++ double_quote
   ++ " does not look like a valid date")%string.

(** [datefstr(datestr, dateformat, longdateformat)] *)
Definition datefstr (datestr dateformat longdateformat : string)
  : datefstr_result :=
  match datetime_strptime datestr longdateformat with
  | Some dtstart => Returned (dt_date dtstart)
  | None =>
      match datetime_strptime datestr dateformat with
      | None => InvalidDate (msg_invalid_date datestr)
      | Some dtstart =>
          if nth 0 (timetuple dtstart) 0 =? 1900
          then match datetime_of_args
                       (nth 0 (timetuple today) 0
                        :: slice 1 5 (timetuple dtstart)) with
               | Ok dtstart => Returned (dt_date dtstart)
               | Raise ValueError => InvalidDate (msg_invalid_date datestr)
               | Raise e => Propagated e
               end
          else Returned (dt_date dtstart)
      end
  end.

(** [generate_random_uid()] *)
Definition generate_random_uid : string :=
  let choice := "ABCDEFGHIJKLMNOPQRSTUVWXYZ0123456789" in
  string_of_list_ascii
    (List.map (fun i => random_choice i choice) (List.seq 0 36)).

(** ** Events *)

(** What is attached as [dtstart], [dtend] or [dtstamp]: a naive
    datetime, a datetime localized to a timezone ([tz.localize(x)] keeps
    the wall-clock fields of [x] and attaches the zone), or a pure date. *)
Inductive when : Type :=
| Naive (x : datetime)
| Aware (x : datetime) (tz : tzinfo)
| Day (d : date).

Inductive prop_value : Type :=
| PText (s : string)
| PWhen (w : when)
| PRRule (freq : string) (until : option datetime).

(** An [icalendar.Event], as its properties in the order of the
    [event.add(name, value)] calls. *)
Definition event : Type := list (string * prop_value).

Definition add (name : string) (v : prop_value) (ev : event) : event :=
  (ev ++ [(name, v)])%list.

Fixpoint get (name : string) (ev : event) : option prop_value :=
  match ev with
  | [] => None
  | (n, v) :: ev' => if String.eqb n name then Some v else get name ev'
  end.

(** The keyword arguments of [construct_event]. *)
Record options : Type := mkoptions {
  defaulttimelen : Z;
  defaultdatelen : Z;
  encoding : string;
  description : option string;
  location : option string;
  repeat : option string;
  until : option (list string);
  _now : datetime
}.

Definition nl : string := String (ascii_of_nat 10) EmptyString.

Definition msg_cannot_parse (date_list : list string) : string :=
  ("Cannot parse: '" ++ join " " date_list ++ "'" ++ nl
   ++ "Please have a look at the documentation.")%string.

Definition backslash : ascii := ascii_of_nat 92.

Definition hex_digit (n : nat) : ascii :=
  match String.get n "0123456789abcdef" with
  | Some c => c
  | None => "0"%char
  end.

Definition has_char (c : ascii) (s : string) : bool :=
  match String.index 0 (String c EmptyString) s with
  | Some _ => true
  | None => false
  end.

(** The body of [repr(s)] between the quotes [quote]: the quote and
    the backslash are escaped, tab, newline and carriage return are
    written with their letters, other control characters in hexadecimal.
    Bytes above 127 stand for printable characters and are kept. *)
Fixpoint repr_chars (quote : ascii) (s : string) : string :=
  match s with
  | EmptyString => EmptyString
  | String c s' =>
      let n := nat_of_ascii c in
      ((if Ascii.eqb c quote || Ascii.eqb c backslash
        then String backslash (String c EmptyString)
        else if Nat.eqb n 9 then String backslash "t"
        else if Nat.eqb n 10 then String backslash "n"
        else if Nat.eqb n 13 then String backslash "r"
        else if Nat.ltb n 32 || Nat.eqb n 127
        then String backslash
               (String "x"%char
                  (String (hex_digit (Nat.div n 16))
                     (String (hex_digit (Nat.modulo n 16)) EmptyString)))
        else String c EmptyString)
       ++ repr_chars quote s')%string
  end.

(** [repr(s)] of a string: in single quotes, unless it holds a single
    quote and no double quote. *)
Definition repr_str (s : string) : string :=
  let quote :=
    if has_char "'"%char s && negb (has_char (ascii_of_nat 34) s)
    then ascii_of_nat 34 else "'"%char in
  String quote (repr_chars quote s ++ String quote EmptyString)%string.

(** [repr(l)] of a list of strings, which is what [format] writes for
    it. *)
Definition repr_list (l : list string) : string :=
  ("[" ++ join ", " (List.map repr_str l) ++ "]")%string.

Definition msg_cannot_parse_until (until : list string) : string :=
  ("Cannot parse until date: '" ++ repr_list until ++ "'" ++ nl
   ++ "Please have a look at the documentation.")%string.

Definition msg_invalid_repeat : string :=
  ("Invalid value for the repeat option. "
   ++ "                    "
   ++ "Possible values are: daily, weekly, monthly or yearly")%string.

(** Lines 195-201: the end is parsed with the start as [default_day];
    a [ValueError] gives the default length instead. *)
Definition resolve_end (loc : locale) (o : options)
           (dtstart : datetime) (all_day : bool) : parser datetime :=
  fun date_list =>
    match guessdatetimefstr loc dtstart date_list with
    | (Ok (dtend, _), rest) => (Ok dtend, rest)
    | (Raise ValueError, rest) =>
        (if all_day
         then add_timedelta dtstart (defaultdatelen o - 1) 0
         else add_timedelta dtstart 0 (defaulttimelen o), rest)
    | (Raise e, rest) => (Raise e, rest)
    end.

(** Lines 203-210: the all-day adjustments of [dtend]. *)
Definition repair_all_day (dtstart dtend : datetime) : res datetime :=
  dtend <- add_timedelta dtend 1 0 ;;
  dtend <- (if (dt_year dtend =? dt_year today)
               && negb (dt_year dtstart =? dt_year today)
            then datetime_of_args
                   (dt_year dtstart :: slice 1 6 (timetuple dtend))
            else Ok dtend) ;;
  if dt_lt dtend dtstart
  then datetime_of_args (dt_year dtend + 1 :: slice 1 6 (timetuple dtend))
  else Ok dtend.

(** Lines 212-216: the two steps every event goes through. *)
Definition repair_before_start (dtstart dtend : datetime) : res datetime :=
  dtend <- (if dt_lt dtend dtstart
            then datetime_of_args (slice 0 3 (timetuple dtstart)
                                   ++ slice 3 5 (timetuple dtend))
            else Ok dtend) ;;
  if dt_lt dtend dtstart then add_timedelta dtend 1 0 else Ok dtend.

(** Lines 203-216. *)
Definition repair (all_day : bool) (dtstart dtend : datetime)
  : res datetime :=
  dtend <- (if all_day then repair_all_day dtstart dtend else Ok dtend) ;;
  repair_before_start dtstart dtend.

(** Lines 217-229: pure dates for an all-day event, otherwise the
    timezone named by the next token or the default one. *)
Definition localize_window (default_timezone : tzinfo) (all_day : bool)
           (dtstart dtend : datetime) : parser (when * when) :=
  fun date_list =>
    if all_day
    then (Ok (Day (dt_date dtstart), Day (dt_date dtend)), date_list)
    else match date_list with
         | [] => (Raise IndexError, date_list)
         | tok :: rest =>
             match pytz_timezone tok with
             | Some tz => (Ok (Aware dtstart tz, Aware dtend tz), rest)
             | None =>
                 (Ok (Aware dtstart default_timezone,
                      Aware dtend default_timezone), date_list)
             end
         end.

(** Lines 233-240: summary and description out of the free text. *)
Definition split_text (o : options) (text : string)
  : string * option string :=
  if negb (truthy (description o)) || negb (truthy (location o))
  then
    let summary := fst (split_once " :: " text) in
    match snd (split_once " :: " text) with
    | Some d => (summary, Some d)
    | None => (summary, description o)
    end
  else (text, description o).

(** The [for ... try ... break ... except ValueError: pass] loop over
    the until-date parsers; [None] when none of them matched. *)
Fixpoint first_parse (fs : list (parser datetime)) (until : list string)
  : res (option datetime) :=
  match fs with
  | [] => Ok None
  | fn :: fs' =>
      match fn until with
      | (Ok until_date, _) => Ok (Some until_date)
      | (Raise ValueError, rest) => first_parse fs' rest
      | (Raise e, _) => Raise e
      end
  end.

Definition nonempty {A : Type} (o : option (list A)) : bool :=
  match o with
  | Some (_ :: _) => true
  | _ => false
  end.

Definition string_in (s : string) (l : list string) : bool :=
  existsb (String.eqb s) l.

(** Lines 246-271: the recurrence rule, with the messages handed to
    [logger.fatal]. *)
Definition recurrence (loc : locale) (o : options)
  : res (option prop_value) * list string :=
  match repeat o with
  | Some rep =>
      if negb (String.eqb rep "") && negb (String.eqb rep "none")
      then
        if string_in rep ["daily"; "weekly"; "monthly"; "yearly"]
        then
          match until o with
          | Some (u :: us) =>
              match first_parse [ datetimefstr (datetimeformat loc);
                                  datetimefstr (longdatetimeformat loc);
                                  timefstr (timeformat loc);
                                  datetimefstr (dateformat loc);
                                  datetimefstr (longdateformat loc) ]
                                (u :: us) with
              | Raise e => (Raise e, [])
              | Ok None =>
                  (Raise FatalError, [msg_cannot_parse_until (u :: us)])
              | Ok (Some until_date) =>
                  (Ok (Some (PRRule rep (Some until_date))), [])
              end
          | _ => (Ok (Some (PRRule rep None)), [])
          end
        else (Raise FatalError, [msg_invalid_repeat])
      else (Ok None, [])
  | None => (Ok None, [])
  end.

Definition add_if (name : string) (v : option string) (ev : event)
  : event :=
  match v with
  | Some s => if String.eqb s "" then ev else add name (PText s) ev
  | None => ev
  end.

Definition add_opt (name : string) (v : option prop_value) (ev : event)
  : event :=
  match v with
  | Some p => add name p ev
  | None => ev
  end.

(** What a call of [construct_event] leaves behind. *)
Record outcome : Type := mkoutcome {
  (** the event returned or the exception raised *)
  returned : res event;
  (** the caller's token list after the call *)
  tokens_left : list string;
  (** the messages handed to [logger.fatal] *)
  fatal_log : list string
}.

(** [construct_event(date_list, timeformat, dateformat, longdateformat,
    datetimeformat, longdatetimeformat, default_timezone, ...)]; the five
    format arguments come as the [locale] they are packed into on entry,
    the keyword arguments as [o]. *)
Definition construct_event (date_list : list string) (loc : locale)
           (default_timezone : tzinfo) (o : options) : outcome :=
  match guessdatetimefstr loc import_today date_list with
  | (Raise ValueError, l1) =>
      mkoutcome (Raise FatalError) l1 [msg_cannot_parse l1]
  | (Raise e, l1) => mkoutcome (Raise e) l1 []
  | (Ok (dtstart, all_day), l1) =>
      match resolve_end loc o dtstart all_day l1 with
      | (Raise e, l2) => mkoutcome (Raise e) l2 []
      | (Ok dtend, l2) =>
          match repair all_day dtstart dtend with
          | Raise e => mkoutcome (Raise e) l2 []
          | Ok dtend =>
              match localize_window default_timezone all_day
                                    dtstart dtend l2 with
              | (Raise e, l3) => mkoutcome (Raise e) l3 []
              | (Ok (dtstart, dtend), l3) =>
                  let ev : event := [] in
                  let text := to_unicode (join " " l3) (encoding o) in
                  let (summary, description) := split_text o text in
                  let ev := add_if "description" description ev in
                  let ev := add_if "location" (location o) ev in
                  match recurrence loc o with
                  | (Raise e, log) => mkoutcome (Raise e) l3 log
                  | (Ok rrule, log) =>
                      let ev := add_opt "rrule" rrule ev in
                      let ev := add "dtstart" (PWhen dtstart) ev in
                      let ev := add "dtend" (PWhen dtend) ev in
                      let ev := add "dtstamp" (PWhen (Naive (_now o))) ev in
                      let ev := add "summary" (PText summary) ev in
                      let ev := add "uid" (PText generate_random_uid) ev in
                      mkoutcome (Ok ev) l3 log
                  end
              end
          end
      end
  end.

(** The event [construct_event] builds from the localized window
    [ws], [we], the recurrence rule [rr] and the tokens [l3] that are
    left: the [event.add] calls of the source, in their order. *)
Definition assembled (o : options) (ws we : when)
           (rr : option prop_value) (l3 : list string) : event :=
  let text := to_unicode (join " " l3) (encoding o) in
  add "uid" (PText generate_random_uid)
   (add "summary" (PText (fst (split_text o text)))
    (add "dtstamp" (PWhen (Naive (_now o)))
     (add "dtend" (PWhen we)
      (add "dtstart" (PWhen ws)
       (add_opt "rrule" rr
        (add_if "location" (location o)
         (add_if "description" (snd (split_text o text)) []))))))).

(** ** The quick constructor *)

(** What a caller may pass as [dtstart]: a [date] or a [datetime], which
    is a subclass of [date]. *)
Inductive date_like : Type :=
| ADate (d : date)
| ADatetime (x : datetime).

(** [isinstance(v, date)] *)
Definition isinstance_date (v : date_like) : bool :=
  match v with
  | ADate _ => true
  | ADatetime _ => true
  end.

(** The date part [datetime.combine] reads from its first argument. *)
Definition date_of (v : date_like) : date :=
  match v with
  | ADate d => d
  | ADatetime x => dt_date x
  end.

(** A [date_like] value left as it is (only reached by values that are
    no dates, of which the type has none). *)
Definition as_datetime (v : date_like) : datetime :=
  match v with
  | ADate d => mkdt d (mktime 0 0 0 0)
  | ADatetime x => x
  end.

Definition localize (timezone : option tzinfo) (x : datetime) : when :=
  match timezone with
  | Some tz => Aware x tz
  | None => Naive x
  end.

(** [new_event(dtstart, dtend, summary, timezone, _now)] *)
Definition new_event (dtstart : option date_like) (dtend : option datetime)
           (summary : option string) (timezone : option tzinfo)
           (_now : datetime) : res event :=
  now <- datetime_of_args (slice 0 4 (timetuple today)) ;;
  inonehour <- add_timedelta now 0 60 ;;
  let dtstart :=
    match dtstart with
    | None => inonehour
    | Some v =>
        if isinstance_date v
        then let time_start := dt_time inonehour in
             combine (date_of v) time_start
        else as_datetime v
    end in
  dtend <- (match dtend with
            | None => add_timedelta dtstart 0 60
            | Some e => Ok e
            end) ;;
  let summary := match summary with
                 | None => "New Event"
                 | Some s => s
                 end in
  let ev : event := [] in
  let ev := add "dtstart" (PWhen (localize timezone dtstart)) ev in
  let ev := add "dtend" (PWhen (localize timezone dtend)) ev in
  let ev := add "dtstamp" (PWhen (Naive _now)) ev in
  let ev := add "summary" (PText summary) ev in
  let ev := add "uid" (PText generate_random_uid) ev in
  Ok ev.

End Aux.

(* ================================================================== *)
(** * An executable instance of the collaborators *)
(* ================================================================== *)

(** [strptime] for the numeric directives [%Y %m %d %H %M %S], [%%],
    literal characters and blanks, following [_strptime.py]: the format
    becomes a regular expression whose alternatives are tried in order
    with backtracking, the first match is taken, and text left over after
    it is an error.  The functions of [aux.py] are run with it on
    concrete command lines. *)
Module Strptime.

Inductive item : Type :=
| Lit (c : ascii)
| Blanks
| Dir (c : ascii).

Definition is_blank (c : ascii) : bool := Ascii.eqb c " "%char.

(** The format as a sequence of items; a run of blanks is one item
    (it becomes [\s+]).  [pct] tells that the character before was the
    [%] that opens a directive. *)
Fixpoint compile_from (pct : bool) (fmt : string) : list item :=
  match fmt with
  | EmptyString => if pct then [Lit "%"%char] else []
  | String c fmt' =>
      if pct
      then (if Ascii.eqb c "%"%char then Lit c else Dir c)
           :: compile_from false fmt'
      else if Ascii.eqb c "%"%char
      then compile_from true fmt'
      else if is_blank c
      then match compile_from false fmt' with
           | Blanks :: items => Blanks :: items
           | items => Blanks :: items
           end
      else Lit c :: compile_from false fmt'
  end.

Definition compile (fmt : string) : list item := compile_from false fmt.

Definition digit (c : ascii) : option Z :=
  let n := Z.of_nat (nat_of_ascii c) in
  if (48 <=? n) && (n <=? 57) then Some (n - 48) else None.

Definition lower (c : ascii) : ascii :=
  let n := nat_of_ascii c in
  if (Nat.leb 65 n) && (Nat.leb n 90) then ascii_of_nat (n + 32) else c.

(** The values parsed so far; the defaults are those of [_strptime]. *)
Record fields : Type := mkfields {
  f_year : Z; f_month : Z; f_day : Z;
  f_hour : Z; f_minute : Z; f_second : Z
}.

Definition defaults : fields := mkfields 1900 1 1 0 0 0.

Definition set_field (d : ascii) (v : Z) (f : fields) : fields :=
  if Ascii.eqb d "Y"%char then
    mkfields v (f_month f) (f_day f) (f_hour f) (f_minute f) (f_second f)
  else if Ascii.eqb d "m"%char then
    mkfields (f_year f) v (f_day f) (f_hour f) (f_minute f) (f_second f)
  else if Ascii.eqb d "d"%char then
    mkfields (f_year f) (f_month f) v (f_hour f) (f_minute f) (f_second f)
  else if Ascii.eqb d "H"%char then
    mkfields (f_year f) (f_month f) (f_day f) v (f_minute f) (f_second f)
  else if Ascii.eqb d "M"%char then
    mkfields (f_year f) (f_month f) (f_day f) (f_hour f) v (f_second f)
  else
    mkfields (f_year f) (f_month f) (f_day f) (f_hour f) (f_minute f) v.

(** Range of the two-digit and of the one-digit alternatives of a
    directive: [%m] is [1[0-2]|0[1-9]|[1-9]], [%d] is
    [3[0-1]|[1-2]\d|0[1-9]|[1-9]], [%H] is [2[0-3]|[0-1]\d|\d], [%M] is
    [[0-5]\d|\d], [%S] is [6[0-1]|[0-5]\d|\d]. *)
Definition two_digit_range (d : ascii) : option (Z * Z) :=
  if Ascii.eqb d "m"%char then Some (1, 12)
  else if Ascii.eqb d "d"%char then Some (1, 31)
  else if Ascii.eqb d "H"%char then Some (0, 23)
  else if Ascii.eqb d "M"%char then Some (0, 59)
  else if Ascii.eqb d "S"%char then Some (0, 61)
  else None.

Definition one_digit_min (d : ascii) : Z :=
  if Ascii.eqb d "m"%char || Ascii.eqb d "d"%char then 1 else 0.

(** The ways a directive can match at the front of [s], in the order
    the regular expression tries them: the value and the text left. *)
Definition candidates (d : ascii) (s : string) : list (Z * string) :=
  if Ascii.eqb d "Y"%char then
    match s with
    | String a (String b (String c (String e rest))) =>
        match digit a, digit b, digit c, digit e with
        | Some x, Some y, Some z, Some w =>
            [(x * 1000 + y * 100 + z * 10 + w, rest)]
        | _, _, _, _ => []
        end
    | _ => []
    end
  else
    match two_digit_range d with
    | None => []
    | Some (lo, hi) =>
        let two :=
          match s with
          | String a (String b rest) =>
              match digit a, digit b with
              | Some x, Some y =>
                  let v := x * 10 + y in
                  if (lo <=? v) && (v <=? hi) then [(v, rest)] else []
              | _, _ => []
              end
          | _ => []
          end in
        let one :=
          match s with
          | String a rest =>
              match digit a with
              | Some x => if one_digit_min d <=? x then [(x, rest)] else []
              | None => []
              end
          | EmptyString => []
          end in
        (two ++ one)%list
    end.

(** The texts left after one or more blanks, longest run first. *)
Fixpoint after_blanks (s : string) : list string :=
  match s with
  | String c rest =>
      if is_blank c then (after_blanks rest ++ [rest])%list else []
  | EmptyString => []
  end.

Fixpoint first_some {A B : Type} (f : A -> option B) (l : list A)
  : option B :=
  match l with
  | [] => None
  | a :: l' => match f a with
               | Some b => Some b
               | None => first_some f l'
               end
  end.

(** The first match of the compiled format at the front of [s]. *)
Fixpoint run (items : list item) (s : string) (acc : fields)
  : option (fields * string) :=
  match items with
  | [] => Some (acc, s)
  | Lit c :: items' =>
      match s with
      | String a rest =>
          if Ascii.eqb (lower a) (lower c) then run items' rest acc else None
      | EmptyString => None
      end
  | Blanks :: items' =>
      first_some (fun rest => run items' rest acc) (after_blanks s)
  | Dir d :: items' =>
      first_some (fun vr => run items' (snd vr) (set_field d (fst vr) acc))
                 (candidates d s)
  end.

(** [_strptime(s, fmt)]: the fields, provided the whole of [s] was
    matched and the date exists. *)
Definition parse (s fmt : string) : option fields :=
  match run (compile fmt) s defaults with
  | Some (f, EmptyString) =>
      if valid_date (mkdate (f_year f) (f_month f) (f_day f))
      then Some f else None
  | _ => None
  end.

Definition strptime_datetime (s fmt : string) : option datetime :=
  match parse s fmt with
  | Some f =>
      match new_datetime (f_year f) (f_month f) (f_day f)
                         (f_hour f) (f_minute f) (f_second f) 0 with
      | Ok x => Some x
      | Raise _ => None
      end
  | None => None
  end.

Definition strptime_time (s fmt : string) : option (list Z) :=
  match parse s fmt with
  | Some f => Some [ f_year f; f_month f; f_day f;
                     f_hour f; f_minute f; f_second f ]
  | None => None
  end.

(** The zones the lookup knows, by name. *)
Definition zones : list string :=
  [ "UTC"; "Europe/Berlin"; "America/New_York"; "Asia/Tokyo" ].

Definition lookup_zone (name : string) : option string :=
  if existsb (String.eqb name) zones then Some name else None.

Definition choice_at (i : nat) (seq : string) : ascii :=
  match String.get (Nat.modulo (7 * i + 3) (String.length seq)) seq with
  | Some c => c
  | None => "A"%char
  end.

(** The collaborators with the clock at [clock]; texts are already
    unicode, so [to_unicode] returns its argument. *)
Definition at_clock (clock loaded : datetime) : Externals :=
  {| tzinfo := string;
     datetime_strptime := strptime_datetime;
     time_strptime := strptime_time;
     pytz_timezone := lookup_zone;
     to_unicode := fun text _ => text;
     today := clock;
     import_today := loaded;
     random_choice := choice_at |}.

End Strptime.

(** 20 May 2024, 14:35, the module having been loaded that morning. *)
Definition may2024 : Externals :=
  Strptime.at_clock (mkdt (mkdate 2024 5 20) (mktime 14 35 12 0))
                    (mkdt (mkdate 2024 5 20) (mktime 8 0 3 0)).

(** Year-less short formats, long formats with the year. *)
Definition iso : locale :=
  {| timeformat := "%H:%M";
     datetimeformat := "%m-%d %H:%M";
     longdatetimeformat := "%Y-%m-%d %H:%M";
     dateformat := "%m-%d";
     longdateformat := "%Y-%m-%d" |}.

Definition plain : options :=
  {| defaulttimelen := 60;
     defaultdatelen := 1;
     encoding := "utf-8";
     description := None;
     location := None;
     repeat := None;
     until := None;
     _now := mkdt (mkdate 2024 5 20) (mktime 14 35 12 0) |}.

(** 10 February 2023, mid-morning. *)
Definition feb2023 : Externals :=
  Strptime.at_clock (mkdt (mkdate 2023 2 10) (mktime 10 0 0 0))
                    (mkdt (mkdate 2023 2 10) (mktime 8 0 0 0)).

(** A configuration that writes the year in the short formats too. *)
Definition dotted : locale :=
  {| timeformat := "%H:%M";
     datetimeformat := "%d.%m.%Y %H:%M";
     longdatetimeformat := "%d.%m.%Y %H:%M";
     dateformat := "%d.%m.%Y";
     longdateformat := "%d.%m.%Y" |}.

(** [plain] with [description=d]. *)
Definition described (d : string) : options :=
  {| defaulttimelen := defaulttimelen plain;
     defaultdatelen := defaultdatelen plain;
     encoding := encoding plain;
     description := Some d;
     location := location plain;
     repeat := repeat plain;
     until := until plain;
     _now := _now plain |}.

(** [plain] with [repeat=r]. *)
Definition repeating (r : string) : options :=
  {| defaulttimelen := defaulttimelen plain;
     defaultdatelen := defaultdatelen plain;
     encoding := encoding plain;
     description := description plain;
     location := location plain;
     repeat := Some r;
     until := until plain;
     _now := _now plain |}.

(** The default timezone of the examples. *)
Definition berlin : @tzinfo may2024 :=
  "Europe/Berlin".

Definition at_ (y m d h mi : Z) : datetime :=
  mkdt (mkdate y m d) (mktime h mi 0 0).

(* ================================================================== *)
(** * Vocabulary of the properties *)
(* ================================================================== *)

(** [text] is [a], then [sep], then [b], and [sep] occurs nowhere
    earlier in [text]. *)
Definition first_occurrence (sep text a b : string) : Prop :=
  text = (a ++ sep ++ b)%string /\
  forall a' b' : string,
    text = (a' ++ sep ++ b')%string ->
    (String.length a <= String.length a')%nat.

(** [sep] occurs in [text]. *)
Definition occurs (sep text : string) : Prop :=
  exists a b : string, text = (a ++ sep ++ b)%string.

(** The event a call has returned (the empty event when it raised). *)
Definition event_of {X : Externals} (r : res event) : event :=
  match r with
  | Ok ev => ev
  | Raise _ => []
  end.

(** What [if description: event.add('description', description)]
    attaches. *)
Definition attached {X : Externals} (d : option string)
  : option prop_value :=
  match d with
  | Some s => if String.eqb s "" then None else Some (PText s)
  | None => None
  end.

(** A [repeat] argument that is supplied (not [None], not empty), is
    not the sentinel ["none"] and names none of the four frequencies. *)
Definition unsupported_repeat (o : options) : bool :=
  match repeat o with
  | Some rep =>
      negb (String.eqb rep "") && negb (String.eqb rep "none")
      && negb (string_in rep ["daily"; "weekly"; "monthly"; "yearly"])
  | None => false
  end.

(** The text split as the specification words it: split when neither a
    description nor a location was supplied, otherwise the whole text is
    the summary and the description is the supplied one. *)
Definition split_text_as_specified (o : options) (text : string)
  : string * option string :=
  if negb (truthy (description o)) && negb (truthy (location o))
  then match split_once " :: " text with
       | (summary, Some d) => (summary, Some d)
       | (summary, None) => (summary, description o)
       end
  else (text, description o).

(** The number of tokens each grammar of the resolver occupies, with
    its [all_day] flag, in the order of [grammars]. *)
Definition token_counts (loc : locale) : list (nat * bool) :=
  [ ((count_spaces (datetimeformat loc) + 1)%nat, false);
    ((count_spaces (longdatetimeformat loc) + 1)%nat, false);
    (1%nat, false);
    ((count_spaces (dateformat loc) + 1)%nat, true);
    ((count_spaces (longdateformat loc) + 1)%nat, true) ].

(** [c in s] *)
Fixpoint char_in (c : ascii) (s : string) : bool :=
  match s with
  | EmptyString => false
  | String a s' => Ascii.eqb c a || char_in c s'
  end.

(** Every character of [s] is one of [alphabet]. *)
Fixpoint drawn_from (alphabet s : string) : bool :=
  match s with
  | EmptyString => true
  | String a s' => char_in a alphabet && drawn_from alphabet s'
  end.

(** The [repeat] argument asks for no recurrence: it is [None], empty
    or the sentinel ["none"]. *)
Definition repeat_off (o : options) : bool :=
  match repeat o with
  | Some rep => String.eqb rep "" || String.eqb rep "none"
  | None => true
  end.

(* ================================================================== *)
(** * Properties of the Python values *)
(* ================================================================== *)

Section Calendar.

Lemma lex_opp (c1 c2 : comparison) :
  CompOpp (lex c1 c2) = lex (CompOpp c1) (CompOpp c2).
Proof. destruct c1; reflexivity. Qed.

Lemma date_cmp_antisym (a b : date) : date_cmp b a = CompOpp (date_cmp a b).
Proof.
  unfold date_cmp. rewrite !lex_opp, <- !Z.compare_antisym. reflexivity.
Qed.

Lemma date_cmp_refl (a : date) : date_cmp a a = Eq.
Proof. unfold date_cmp. rewrite !Z.compare_refl. reflexivity. Qed.

(** A later date makes a later datetime, whatever the times of day. *)
Lemma dt_lt_later_date (a b : datetime) :
  date_cmp (dt_date b) (dt_date a) = Lt -> dt_lt a b = false.
Proof.
  intros H. unfold dt_lt, dt_cmp.
  rewrite (date_cmp_antisym (dt_date b) (dt_date a)), H. reflexivity.
Qed.

(** Datetimes in order have their dates in order. *)
Lemma dt_lt_false_date (a b : datetime) :
  dt_lt a b = false -> date_lt (dt_date a) (dt_date b) = false.
Proof.
  unfold dt_lt, date_lt, dt_cmp.
  destruct (date_cmp (dt_date a) (dt_date b)); simpl; congruence.
Qed.

Lemma next_day_later (d d' : date) :
  next_day d = Some d' -> date_cmp d d' = Lt.
Proof.
  unfold next_day, date_cmp. intros H.
  destruct (d_day d <? days_in_month (d_year d) (d_month d)).
  { inversion H; subst; simpl.
    rewrite !Z.compare_refl. simpl. apply Z.compare_lt_iff. lia. }
  destruct (d_month d <? 12).
  { inversion H; subst; simpl.
    rewrite Z.compare_refl. simpl.
    replace (d_month d ?= d_month d + 1) with Lt; [reflexivity|].
    symmetry. apply Z.compare_lt_iff. lia. }
  destruct (d_year d <? 9999); [|discriminate].
  inversion H; subst; simpl.
  replace (d_year d ?= d_year d + 1) with Lt; [reflexivity|].
  symmetry. apply Z.compare_lt_iff. lia.
Qed.

Lemma days_in_month_bounds (y m : Z) :
  28 <= days_in_month y m <= 31.
Proof.
  unfold days_in_month.
  destruct (m =? 2); [destruct (is_leap y); lia|].
  destruct ((m =? 4) || (m =? 6) || (m =? 9) || (m =? 11)); lia.
Qed.

Lemma valid_date_spec (d : date) :
  valid_date d = true <->
  1 <= d_year d <= 9999 /\ 1 <= d_month d <= 12 /\
  1 <= d_day d <= days_in_month (d_year d) (d_month d).
Proof.
  unfold valid_date. rewrite !andb_true_iff, !Z.leb_le. tauto.
Qed.

Lemma valid_time_spec (t : time) :
  valid_time t = true <->
  0 <= t_hour t < 24 /\ 0 <= t_minute t < 60 /\
  0 <= t_second t < 60 /\ 0 <= t_microsecond t < 1000000.
Proof.
  unfold valid_time. rewrite !andb_true_iff, !Z.leb_le, !Z.ltb_lt. tauto.
Qed.

Lemma next_day_valid (d d' : date) :
  valid_date d = true -> next_day d = Some d' -> valid_date d' = true.
Proof.
  rewrite !valid_date_spec. unfold next_day. intros V H.
  destruct (Z.ltb_spec (d_day d) (days_in_month (d_year d) (d_month d))).
  { inversion H; subst; simpl. lia. }
  destruct (Z.ltb_spec (d_month d) 12).
  { inversion H; subst; simpl.
    pose proof (days_in_month_bounds (d_year d) (d_month d + 1)). lia. }
  destruct (Z.ltb_spec (d_year d) 9999); [|discriminate].
  inversion H; subst; simpl.
  pose proof (days_in_month_bounds (d_year d + 1) 1). lia.
Qed.

Lemma prev_day_valid (d d' : date) :
  valid_date d = true -> prev_day d = Some d' -> valid_date d' = true.
Proof.
  rewrite !valid_date_spec. unfold prev_day. intros V H.
  destruct (Z.ltb_spec 1 (d_day d)).
  { inversion H; subst; simpl. lia. }
  destruct (Z.ltb_spec 1 (d_month d)).
  { inversion H; subst; simpl.
    pose proof (days_in_month_bounds (d_year d) (d_month d - 1)). lia. }
  destruct (Z.ltb_spec 1 (d_year d)); [|discriminate].
  inversion H; subst; simpl.
  change (days_in_month (d_year d - 1) 12) with 31. lia.
Qed.

Lemma iter_opt_preserves {A : Type} (P : A -> Prop) (f : A -> option A) :
  (forall a b, P a -> f a = Some b -> P b) ->
  forall n a b, P a -> iter_opt n f a = Some b -> P b.
Proof.
  intros Hf. induction n as [|n IH]; simpl; intros a b Pa H.
  - inversion H; subst; exact Pa.
  - destruct (f a) as [c|] eqn:E; [|discriminate].
    eapply IH; [eapply Hf; eassumption | exact H].
Qed.

Lemma shift_days_valid (d d' : date) (n : Z) :
  valid_date d = true -> shift_days d n = Ok d' -> valid_date d' = true.
Proof.
  unfold shift_days. intros V H.
  destruct (0 <=? n).
  - destruct (iter_opt (Z.to_nat n) next_day d) as [r|] eqn:E;
      [|discriminate].
    inversion H; subst.
    eapply (iter_opt_preserves (fun x => valid_date x = true));
      [apply next_day_valid | exact V | exact E].
  - destruct (iter_opt (Z.to_nat (- n)) prev_day d) as [r|] eqn:E;
      [|discriminate].
    inversion H; subst.
    eapply (iter_opt_preserves (fun x => valid_date x = true));
      [apply prev_day_valid | exact V | exact E].
Qed.

(** Adding a [timedelta] to a datetime gives a datetime. *)
Lemma add_timedelta_valid (x y : datetime) (days minutes : Z) :
  valid_datetime x = true -> add_timedelta x days minutes = Ok y ->
  valid_datetime y = true.
Proof.
  unfold valid_datetime, add_timedelta. intros V H.
  apply andb_prop in V. destruct V as [Vd Vt].
  destruct (shift_days _ _) as [d'|] eqn:E; [|discriminate].
  inversion H; subst; simpl.
  rewrite (shift_days_valid _ _ Vd E). simpl.
  apply valid_time_spec in Vt. apply valid_time_spec. simpl.
  set (total := t_hour (dt_time x) * 60 + t_minute (dt_time x) + minutes).
  pose proof (Z.mod_pos_bound total 1440 ltac:(lia)).
  pose proof (Z.mod_pos_bound total 60 ltac:(lia)).
  assert (0 <= total mod 1440 / 60 < 24).
  { split; [apply Z.div_pos; lia | apply Z.div_lt_upper_bound; lia]. }
  lia.
Qed.

(** One day added to a datetime: the time of day stays, the date moves
    to the next day. *)
Lemma add_one_day (x y : datetime) :
  valid_time (dt_time x) = true -> add_timedelta x 1 0 = Ok y ->
  next_day (dt_date x) = Some (dt_date y) /\ dt_time y = dt_time x.
Proof.
  intros Vt. apply valid_time_spec in Vt. unfold add_timedelta.
  set (total := t_hour (dt_time x) * 60 + t_minute (dt_time x) + 0).
  assert (Hs : 0 <= total < 1440) by (unfold total; lia).
  rewrite (Z.div_small total 1440 Hs), (Z.mod_small total 1440 Hs).
  simpl (1 + 0). unfold shift_days. simpl.
  destruct (next_day (dt_date x)) as [d'|] eqn:E; [|discriminate].
  intros H. inversion H; subst; simpl. split; [reflexivity|].
  destruct (dt_time x) as [h m s us]; simpl in *. f_equal.
  - unfold total. replace (h * 60 + m + 0) with (m + h * 60) by lia.
    rewrite Z.div_add by lia. rewrite Z.div_small by lia. lia.
  - unfold total. replace (h * 60 + m + 0) with (m + h * 60) by lia.
    rewrite Z.mod_add by lia. apply Z.mod_small. lia.
Qed.

Lemma new_datetime_valid (y m d h mi s us : Z) (x : datetime) :
  new_datetime y m d h mi s us = Ok x ->
  valid_datetime x = true /\ x = mkdt (mkdate y m d) (mktime h mi s us).
Proof.
  unfold new_datetime.
  destruct (valid_datetime _) eqn:E; [|discriminate].
  intros H. inversion H; subst. split; [exact E | reflexivity].
Qed.

(** What the [datetime] constructor returns is a datetime. *)
Lemma datetime_of_args_valid (args : list Z) (x : datetime) :
  datetime_of_args args = Ok x -> valid_datetime x = true.
Proof.
  unfold datetime_of_args.
  destruct args as [|y [|m [|d [|h [|mi [|s [|us [|? ?]]]]]]]];
    try discriminate; intros H; apply new_datetime_valid in H; tauto.
Qed.

(** ** Splitting a string at its first delimiter *)

Lemma prefix_drop (sep s : string) :
  String.prefix sep s = true ->
  s = (sep ++ drop (String.length sep) s)%string.
Proof.
  revert s. induction sep as [|c sep IH]; intros s H; simpl.
  - reflexivity.
  - destruct s as [|c' s]; simpl in H; [discriminate|].
    destruct (ascii_dec c c') as [->|]; [|discriminate].
    f_equal. apply IH. exact H.
Qed.

Lemma prefix_append (sep b : string) :
  String.prefix sep (sep ++ b) = true.
Proof.
  induction sep as [|c sep IH]; simpl.
  - destruct b; reflexivity.
  - destruct (ascii_dec c c); [exact IH | congruence].
Qed.

Lemma append_assoc (a b c : string) :
  ((a ++ b) ++ c = a ++ (b ++ c))%string.
Proof. induction a as [|x a IH]; simpl; [reflexivity | now rewrite IH]. Qed.

Lemma append_same_length (a a' b b' : string) :
  (a ++ b = a' ++ b')%string -> String.length a = String.length a' ->
  a = a' /\ b = b'.
Proof.
  revert a'. induction a as [|x a IH]; intros [|x' a'] H L;
    simpl in *; try discriminate.
  - split; [reflexivity | exact H].
  - inversion H; subst. inversion L.
    destruct (IH a' H2 H1) as [-> ->]. split; reflexivity.
Qed.

(** [split_once] cuts at the first occurrence of a non-empty delimiter,
    and only a text without the delimiter is left whole. *)
Lemma split_once_spec (sep : string) :
  sep <> EmptyString ->
  forall s : string,
    match split_once sep s with
    | (a, Some b) => first_occurrence sep s a b
    | (a, None) => a = s /\ ~ occurs sep s
    end.
Proof.
  intros Hsep. induction s as [|c s IH].
  - simpl. destruct sep as [|x sep]; [congruence|]. simpl.
    split; [reflexivity|]. intros (a & b & E).
    destruct a; simpl in E; discriminate.
  - cbn [split_once].
    destruct (String.prefix sep (String c s)) eqn:P.
    + split.
      * simpl. apply prefix_drop. exact P.
      * intros a' b' _. simpl. apply Nat.le_0_l.
    + destruct (split_once sep s) as [a [b|]].
      * destruct IH as [E Hmin]. split.
        -- simpl. now rewrite E.
        -- intros [|c' a'] b' E'.
           ++ simpl in E'. rewrite E' in P.
              rewrite prefix_append in P. discriminate.
           ++ simpl in E'. inversion E'; subst c'.
              simpl. apply le_n_S. eapply Hmin. eassumption.
      * destruct IH as [-> Hno]. split; [reflexivity|].
        intros ([|c' a'] & b' & E').
        -- simpl in E'. rewrite E' in P.
           rewrite prefix_append in P. discriminate.
        -- simpl in E'. inversion E'; subst c'.
           apply Hno. exists a', b'. assumption.
Qed.

Lemma first_occurrence_unique (sep s a b a' b' : string) :
  first_occurrence sep s a b -> first_occurrence sep s a' b' ->
  a = a' /\ b = b'.
Proof.
  intros [E M] [E' M'].
  assert (L : String.length a = String.length a').
  { apply Nat.le_antisymm; [eapply M | eapply M']; eassumption. }
  rewrite E in E'. destruct (append_same_length _ _ _ _ E' L) as [-> Eb].
  split; [reflexivity|].
  assert (L' : String.length sep = String.length sep) by reflexivity.
  destruct (append_same_length _ _ _ _ Eb L') as [_ ->]. reflexivity.
Qed.

End Calendar.

(* ================================================================== *)
(** * Properties of the event assembler *)
(* ================================================================== *)

Section Assembler.

Context {X : Externals}.

(** ** Reading properties back from an event *)

Lemma get_add (n n' : string) (v : prop_value) (ev : event) :
  get n (add n' v ev) =
  match get n ev with
  | Some x => Some x
  | None => if String.eqb n' n then Some v else None
  end.
Proof.
  unfold add. induction ev as [|[m w] ev IH]; simpl.
  - reflexivity.
  - destruct (String.eqb m n); [reflexivity | exact IH].
Qed.

Lemma get_add_if_other (n n' : string) (v : option string) (ev : event) :
  String.eqb n' n = false -> get n (add_if n' v ev) = get n ev.
Proof.
  intros H. unfold add_if. destruct v as [s|]; [|reflexivity].
  destruct (String.eqb s ""); [reflexivity|].
  rewrite get_add, H. destruct (get n ev); reflexivity.
Qed.

Lemma get_add_opt_other (n n' : string) (v : option prop_value)
      (ev : event) :
  String.eqb n' n = false -> get n (add_opt n' v ev) = get n ev.
Proof.
  intros H. unfold add_opt. destruct v as [p|]; [|reflexivity].
  rewrite get_add, H. destruct (get n ev); reflexivity.
Qed.

Lemma assembled_dtstart o ws we rr l3 :
  get "dtstart" (assembled o ws we rr l3) = Some (PWhen ws).
Proof.
  unfold assembled.
  rewrite !get_add, get_add_opt_other, !get_add_if_other by reflexivity.
  reflexivity.
Qed.

Lemma assembled_dtend o ws we rr l3 :
  get "dtend" (assembled o ws we rr l3) = Some (PWhen we).
Proof.
  unfold assembled.
  rewrite !get_add, get_add_opt_other, !get_add_if_other by reflexivity.
  reflexivity.
Qed.

Lemma assembled_summary o ws we rr l3 :
  get "summary" (assembled o ws we rr l3) =
  Some (PText (fst (split_text o (to_unicode (join " " l3) (encoding o))))).
Proof.
  unfold assembled.
  rewrite !get_add, get_add_opt_other, !get_add_if_other by reflexivity.
  reflexivity.
Qed.

Lemma assembled_description o ws we rr l3 :
  get "description" (assembled o ws we rr l3) =
  attached (snd (split_text o (to_unicode (join " " l3) (encoding o)))).
Proof.
  unfold assembled, attached.
  rewrite !get_add, get_add_opt_other, get_add_if_other by reflexivity.
  unfold add_if.
  destruct (snd (split_text o _)) as [d|]; [|reflexivity].
  destruct (String.eqb d ""); reflexivity.
Qed.

(** ** The phases a returned event has gone through *)

Lemma construct_event_steps date_list loc default_timezone o
      s all_day l1 e0 l2 e ws we l3 :
  guessdatetimefstr loc import_today date_list = (Ok (s, all_day), l1) ->
  resolve_end loc o s all_day l1 = (Ok e0, l2) ->
  repair all_day s e0 = Ok e ->
  localize_window default_timezone all_day s e l2 = (Ok (ws, we), l3) ->
  construct_event date_list loc default_timezone o =
  match recurrence loc o with
  | (Ok rr, log) => mkoutcome (Ok (assembled o ws we rr l3)) l3 log
  | (Raise x, log) => mkoutcome (Raise x) l3 log
  end.
Proof.
  intros H1 H2 H3 H4. unfold construct_event.
  rewrite H1, H2, H3, H4. unfold assembled.
  destruct (split_text o _) as [summary descr]. simpl.
  destruct (recurrence loc o) as [[rr|x] log]; reflexivity.
Qed.

Lemma construct_event_returns date_list loc default_timezone o ev :
  returned (construct_event date_list loc default_timezone o) = Ok ev ->
  exists s all_day l1 e0 l2 e ws we l3 rr log,
    guessdatetimefstr loc import_today date_list = (Ok (s, all_day), l1) /\
    resolve_end loc o s all_day l1 = (Ok e0, l2) /\
    repair all_day s e0 = Ok e /\
    localize_window default_timezone all_day s e l2 = (Ok (ws, we), l3) /\
    recurrence loc o = (Ok rr, log) /\
    construct_event date_list loc default_timezone o =
      mkoutcome (Ok ev) l3 log /\
    ev = assembled o ws we rr l3.
Proof.
  intros H.
  destruct (guessdatetimefstr loc import_today date_list)
    as [[[s all_day]|x] l1] eqn:H1.
  2:{ unfold construct_event in H. rewrite H1 in H.
      destruct x; discriminate. }
  destruct (resolve_end loc o s all_day l1) as [[e0|x] l2] eqn:H2.
  2:{ unfold construct_event in H. rewrite H1, H2 in H. discriminate. }
  destruct (repair all_day s e0) as [e|x] eqn:H3.
  2:{ unfold construct_event in H. rewrite H1, H2, H3 in H. discriminate. }
  destruct (localize_window default_timezone all_day s e l2)
    as [[[ws we]|x] l3] eqn:H4.
  2:{ unfold construct_event in H. rewrite H1, H2, H3, H4 in H.
      discriminate. }
  rewrite (@construct_event_steps date_list loc default_timezone o
             s all_day l1 e0 l2 e ws we l3 H1 H2 H3 H4) in H |- *.
  destruct (recurrence loc o) as [[rr|x] log] eqn:H5; [|discriminate].
  simpl in H. inversion H; subst.
  exists s, all_day, l1, e0, l2, e, ws, we, l3, rr, log.
  repeat split; try assumption; reflexivity.
Qed.

(** ** End never before start *)

(** After the two steps of lines 212-216 the end is not before the
    start. *)
Lemma repair_before_start_ordered (s e e' : datetime) :
  repair_before_start s e = Ok e' -> dt_lt e' s = false.
Proof.
  unfold repair_before_start. intros H.
  destruct (dt_lt e s) eqn:L1.
  - simpl in H.
    destruct (new_datetime (d_year (dt_date s)) (d_month (dt_date s))
                (d_day (dt_date s)) (t_hour (dt_time e))
                (t_minute (dt_time e)) 0 0) as [e1|x] eqn:N;
      [|discriminate].
    simpl in H. apply new_datetime_valid in N. destruct N as [V ->].
    match type of H with
    | (if dt_lt ?a s then _ else _) = _ => destruct (dt_lt a s) eqn:L2
    end.
    + apply andb_prop in V. destruct V as [_ Vt].
      apply (add_one_day _ Vt) in H. destruct H as [Hn _].
      apply next_day_later in Hn. simpl in Hn.
      apply dt_lt_later_date.
      destruct s as [[sy sm sd] st]. exact Hn.
    + inversion H; subst. exact L2.
  - simpl in H. rewrite L1 in H. inversion H; subst. exact L1.
Qed.

Lemma repair_ordered (all_day : bool) (s e e' : datetime) :
  repair all_day s e = Ok e' -> dt_lt e' s = false.
Proof.
  unfold repair. intros H.
  destruct (if all_day then repair_all_day s e else Ok e) as [e1|x];
    [|discriminate].
  simpl in H. eapply repair_before_start_ordered; exact H.
Qed.

(** ** The resolver on an empty token list *)

Lemma datetimefstr_nil (fmt : string) :
  datetimefstr fmt [] = (Raise ValueError, []) \/
  datetimefstr fmt [] = (Raise IndexError, []).
Proof.
  unfold datetimefstr. rewrite Nat.add_1_r.
  destruct (datetime_strptime _ fmt); [right | left]; reflexivity.
Qed.

(** With no token left the resolver does not fail with [ValueError]:
    the full-format grammars fail or run out of tokens to pop, and the
    time grammar indexes the first token. *)
Lemma guessdatetimefstr_nil (loc : locale) (default_day : datetime) :
  guessdatetimefstr loc default_day [] = (Raise IndexError, []).
Proof.
  unfold guessdatetimefstr, grammars. cbn [first_match].
  unfold datefstr_year at 1.
  destruct (datetimefstr_nil (datetimeformat loc)) as [E|E]; rewrite E;
    [|reflexivity].
  destruct (datetimefstr_nil (longdatetimeformat loc)) as [E2|E2];
    rewrite E2; reflexivity.
Qed.

(** Lines 197-201: a [ValueError] of the resolver gives the default
    length, counted in days for an all-day start and in minutes
    otherwise, and leaves the tokens as the resolver left them. *)
Lemma resolve_end_default loc o s all_day l rest :
  guessdatetimefstr loc s l = (Raise ValueError, rest) ->
  resolve_end loc o s all_day l =
  (if all_day then add_timedelta s (defaultdatelen o - 1) 0
   else add_timedelta s 0 (defaulttimelen o), rest).
Proof. intros H. unfold resolve_end. rewrite H. reflexivity. Qed.

(** ** What the resolver returns is a datetime *)

Section Valid.

Hypothesis strptime_valid :
  forall (str fmt : string) (x : datetime),
    datetime_strptime str fmt = Some x -> valid_datetime x = true.

Lemma datetimefstr_valid fmt l x rest :
  datetimefstr fmt l = (Ok x, rest) -> valid_datetime x = true.
Proof.
  unfold datetimefstr.
  destruct (datetime_strptime _ fmt) as [y|] eqn:E; [|discriminate].
  destruct (pop_front _ l) as [[u|err] r]; [|discriminate].
  intros H. inversion H; subst. eapply strptime_valid. exact E.
Qed.

Lemma datefstr_year_valid d fmt l x rest :
  datefstr_year d fmt l = (Ok x, rest) -> valid_datetime x = true.
Proof.
  unfold datefstr_year.
  destruct (datetimefstr fmt l) as [[y|err] r]; [|discriminate].
  intros H. inversion H as [[H1 H2]].
  apply new_datetime_valid in H1. tauto.
Qed.

Lemma timefstr_day_valid d fmt l x rest :
  timefstr_day d fmt l = (Ok x, rest) -> valid_datetime x = true.
Proof.
  unfold timefstr_day.
  destruct (timefstr fmt l) as [[y|err] r]; [|discriminate].
  intros H. inversion H as [[H1 H2]].
  apply new_datetime_valid in H1. tauto.
Qed.

Lemma first_match_ok gs l x all_day rest :
  first_match gs l = (Ok (x, all_day), rest) ->
  exists fn l', In (fn, all_day) gs /\ fn l' = (Ok x, rest).
Proof.
  revert l. induction gs as [|[fn ad] gs IH]; intros l H; simpl in H.
  - discriminate.
  - destruct (fn l) as [[y|err] r] eqn:E.
    + inversion H; subst. exists fn, l. split; [left; reflexivity | exact E].
    + destruct err; try discriminate.
      destruct (IH _ H) as (fn' & l' & I & E').
      exists fn', l'. split; [right; exact I | exact E'].
Qed.

Lemma guessdatetimefstr_valid loc d l x all_day rest :
  guessdatetimefstr loc d l = (Ok (x, all_day), rest) ->
  valid_datetime x = true.
Proof.
  intros H. apply first_match_ok in H. destruct H as (fn & l' & I & E).
  unfold grammars in I. simpl in I.
  destruct I as [I|[I|[I|[I|[I|[]]]]]]; inversion I; subst.
  - eapply datefstr_year_valid; exact E.
  - eapply datetimefstr_valid; exact E.
  - eapply timefstr_day_valid; exact E.
  - eapply datefstr_year_valid; exact E.
  - eapply datetimefstr_valid; exact E.
Qed.

Lemma resolve_end_valid loc o s all_day l e rest :
  valid_datetime s = true ->
  resolve_end loc o s all_day l = (Ok e, rest) -> valid_datetime e = true.
Proof.
  intros V. unfold resolve_end.
  destruct (guessdatetimefstr loc s l) as [[[x ad]|err] r] eqn:E.
  - intros H. inversion H; subst. eapply guessdatetimefstr_valid; exact E.
  - destruct err; try discriminate.
    intros H. inversion H.
    destruct all_day; eapply add_timedelta_valid; eassumption.
Qed.

End Valid.

(** ** The repair of a timed event *)

(** Lines 212-216 on an end that is before the start: the end gets the
    date of the start and keeps its hour and minute; when that is still
    before the start, one day is added. *)
Lemma repair_timed (s e : datetime) :
  valid_datetime s = true -> valid_datetime e = true ->
  dt_lt e s = true ->
  let e1 := combine (dt_date s)
                    (mktime (t_hour (dt_time e)) (t_minute (dt_time e)) 0 0)
  in
  repair false s e = (if dt_lt e1 s then add_timedelta e1 1 0 else Ok e1).
Proof.
  intros Vs Ve L.
  destruct s as [[y m d] ts], e as [de [h mi sec us]].
  unfold repair, repair_before_start. simpl.
  rewrite L. simpl. unfold new_datetime, combine.
  assert (V1 : valid_datetime (mkdt (mkdate y m d) (mktime h mi 0 0))
               = true).
  { unfold valid_datetime in *. simpl in *.
    apply andb_prop in Vs. destruct Vs as [Vd _].
    apply andb_prop in Ve. destruct Ve as [_ Vt].
    rewrite Vd. simpl.
    apply valid_time_spec in Vt. apply valid_time_spec. simpl in *. lia. }
  rewrite V1. reflexivity.
Qed.

(** ** The recurrence rule *)

Lemma recurrence_unsupported loc o :
  unsupported_repeat o = true ->
  recurrence loc o = (Raise FatalError, [msg_invalid_repeat]).
Proof.
  unfold unsupported_repeat, recurrence.
  destruct (repeat o) as [rep|]; [|discriminate].
  intros H. apply andb_prop in H. destruct H as [H1 H2].
  rewrite H1. apply negb_true_iff in H2. rewrite H2. reflexivity.
Qed.

End Assembler.

(* ================================================================== *)
(** * The properties of the specification *)
(* ================================================================== *)

Section Claims.

Context {X : Externals}.

(** C1.  Whenever [construct_event] returns an event, the end attached
    as [dtend] is not strictly before the start attached as [dtstart]:
    an all-day event carries two pure dates in order, a timed event two
    datetimes localized to the same timezone whose wall-clock values are
    in order. *)
Theorem construct_event_end_not_before_start
        (date_list : list string) (loc : locale)
        (default_timezone : tzinfo) (o : options) (ev : event) :
  returned (construct_event date_list loc default_timezone o) = Ok ev ->
  (exists s e : date,
      get "dtstart" ev = Some (PWhen (Day s)) /\
      get "dtend" ev = Some (PWhen (Day e)) /\
      date_lt e s = false)
  \/
  (exists (s e : datetime) (tz : tzinfo),
      get "dtstart" ev = Some (PWhen (Aware s tz)) /\
      get "dtend" ev = Some (PWhen (Aware e tz)) /\
      dt_lt e s = false).
Proof.
  intros H. apply construct_event_returns in H.
  destruct H as (s & all_day & l1 & e0 & l2 & e & ws & we & l3 & rr & log
                 & _ & _ & Hrep & Hloc & _ & _ & ->).
  rewrite assembled_dtstart, assembled_dtend.
  apply repair_ordered in Hrep.
  unfold localize_window in Hloc. destruct all_day.
  - inversion Hloc; subst. left.
    exists (dt_date s), (dt_date e).
    repeat split. apply dt_lt_false_date. exact Hrep.
  - right. destruct l2 as [|tok rest]; [discriminate|].
    destruct (pytz_timezone tok) as [tz|]; inversion Hloc; subst.
    + exists s, e, tz. repeat split. exact Hrep.
    + exists s, e, default_timezone. repeat split. exact Hrep.
Qed.

(** C2.  When the start has been resolved and no token is left, the
    end resolution does not end in the [ValueError] that gives the
    default length: the resolver raises [IndexError], which
    [construct_event] does not catch, so the call raises it, builds no
    event and reports nothing.  The default window of the claim is not
    reached on such input. *)
Theorem construct_event_nothing_after_start
        (date_list : list string) (loc : locale)
        (default_timezone : tzinfo) (o : options)
        (s : datetime) (all_day : bool) :
  guessdatetimefstr loc import_today date_list = (Ok (s, all_day), []) ->
  construct_event date_list loc default_timezone o =
  mkoutcome (Raise IndexError) [] [].
Proof.
  intros H. unfold construct_event, resolve_end.
  rewrite H, guessdatetimefstr_nil. reflexivity.
Qed.

(** C3 (as amended).  In a returned event the summary and the
    description come from the free text (the tokens left, joined) as
    follows.  The text is split exactly when the description or the
    location argument is missing or empty: then, if the delimiter occurs,
    the summary is the text before its first occurrence and the
    description the text after it; if it does not occur, the summary is
    the whole text and the description the supplied one.  When both
    arguments are supplied the summary is the whole text and the
    description the supplied one. *)
Theorem summary_and_description_split
        (date_list : list string) (loc : locale)
        (default_timezone : tzinfo) (o : options) (ev : event) :
  returned (construct_event date_list loc default_timezone o) = Ok ev ->
  let text :=
    to_unicode
      (join " " (tokens_left
                   (construct_event date_list loc default_timezone o)))
      (encoding o) in
  (truthy (description o) && truthy (location o) = true ->
   get "summary" ev = Some (PText text) /\
   get "description" ev = attached (description o))
  /\
  (truthy (description o) && truthy (location o) = false ->
   (forall a b : string,
       first_occurrence " :: " text a b ->
       get "summary" ev = Some (PText a) /\
       get "description" ev = attached (Some b))
   /\
   (~ occurs " :: " text ->
    get "summary" ev = Some (PText text) /\
    get "description" ev = attached (description o))).
Proof.
  intros H. apply construct_event_returns in H.
  destruct H as (s & all_day & l1 & e0 & l2 & e & ws & we & l3 & rr & log
                 & _ & _ & _ & _ & _ & -> & ->).
  simpl tokens_left. intros text.
  rewrite assembled_summary, assembled_description. fold text.
  assert (Hsep : " :: " <> EmptyString) by discriminate.
  pose proof (split_once_spec Hsep text) as S.
  unfold split_text.
  destruct (truthy (description o)), (truthy (location o)); simpl;
    (split; [intros T; try discriminate; split; reflexivity
            |intros T; try discriminate]).
  all: split.
  all: try (intros a b F; destruct (split_once " :: " text) as [a0 [b0|]];
            [ destruct (first_occurrence_unique F S) as [-> ->];
              split; reflexivity
            | exfalso; destruct S as [_ N]; apply N;
              destruct F as [E _]; exists a, b; exact E ]).
  all: intros N; destruct (split_once " :: " text) as [a0 [b0|]];
    [ exfalso; apply N; destruct S as [E _]; exists a0, b0; exact E
    | destruct S as [-> _]; split; reflexivity ].
Qed.

(** The general part of C5: for a timed event whose resolved end is
    before its start, the end that is attached is the date of the start
    with the hour and minute of the resolved end, or the day after it
    when that is still before the start. *)
Lemma timed_end_before_start
      (date_list : list string) (loc : locale)
      (default_timezone : tzinfo) (o : options)
      (s e0 : datetime) (l1 l2 : list string) :
  (forall (str fmt : string) (x : datetime),
      datetime_strptime str fmt = Some x -> valid_datetime x = true) ->
  guessdatetimefstr loc import_today date_list = (Ok (s, false), l1) ->
  resolve_end loc o s false l1 = (Ok e0, l2) ->
  dt_lt e0 s = true ->
  let e1 := combine (dt_date s)
                    (mktime (t_hour (dt_time e0)) (t_minute (dt_time e0))
                            0 0) in
  repair false s e0 = (if dt_lt e1 s then add_timedelta e1 1 0 else Ok e1)
  /\
  forall ev : event,
    returned (construct_event date_list loc default_timezone o) = Ok ev ->
    exists (e : datetime) (tz : tzinfo),
      (if dt_lt e1 s then add_timedelta e1 1 0 else Ok e1) = Ok e /\
      get "dtstart" ev = Some (PWhen (Aware s tz)) /\
      get "dtend" ev = Some (PWhen (Aware e tz)).
Proof.
  intros V H1 H2 L e1.
  assert (Vs : valid_datetime s = true)
    by (eapply guessdatetimefstr_valid; eassumption).
  assert (Ve : valid_datetime e0 = true)
    by (eapply resolve_end_valid; eassumption).
  pose proof (@repair_timed _ s e0 Vs Ve L) as R. cbv zeta in R. fold e1 in R.
  split; [exact R|].
  intros ev H. apply construct_event_returns in H.
  destruct H as (s' & ad & l1' & e0' & l2' & e & ws & we & l3 & rr & log
                 & G1 & G2 & G3 & G4 & _ & _ & ->).
  rewrite H1 in G1. inversion G1; subst s' ad l1'.
  rewrite H2 in G2. inversion G2; subst e0' l2'.
  rewrite R in G3.
  rewrite assembled_dtstart, assembled_dtend.
  unfold localize_window in G4.
  destruct l2 as [|tok rest]; [discriminate|].
  destruct (pytz_timezone tok) as [tz|]; inversion G4; subst.
  - exists e, tz. repeat split. exact G3.
  - exists e, default_timezone. repeat split. exact G3.
Qed.

(** C7.  A timed event with a token [tok] left after the end has been
    resolved: when [tok] names a timezone, start and end are localized to
    it and [tok] is consumed; when the lookup fails, start and end are
    localized to the default timezone, [tok] stays in the list and the
    summary is taken from the text that begins with it.  An event is
    returned whenever the recurrence step raises nothing. *)
Theorem timezone_token
        (date_list : list string) (loc : locale)
        (default_timezone : tzinfo) (o : options)
        (s e0 e : datetime) (l1 rest : list string) (tok : string) :
  guessdatetimefstr loc import_today date_list = (Ok (s, false), l1) ->
  resolve_end loc o s false l1 = (Ok e0, tok :: rest) ->
  repair false s e0 = Ok e ->
  let out := construct_event date_list loc default_timezone o in
  match pytz_timezone tok with
  | Some tz =>
      tokens_left out = rest /\
      forall ev : event,
        returned out = Ok ev ->
        get "dtstart" ev = Some (PWhen (Aware s tz)) /\
        get "dtend" ev = Some (PWhen (Aware e tz)) /\
        get "summary" ev =
          Some (PText (fst (split_text o (to_unicode (join " " rest)
                                                     (encoding o)))))
  | None =>
      tokens_left out = tok :: rest /\
      forall ev : event,
        returned out = Ok ev ->
        get "dtstart" ev = Some (PWhen (Aware s default_timezone)) /\
        get "dtend" ev = Some (PWhen (Aware e default_timezone)) /\
        get "summary" ev =
          Some (PText (fst (split_text o
                              (to_unicode (join " " (tok :: rest))
                                          (encoding o)))))
  end
  /\
  (forall rr log, recurrence loc o = (Ok rr, log) ->
                  exists ev : event, returned out = Ok ev).
Proof.
  intros H1 H2 H3 out.
  assert (S : forall ws we l3,
             localize_window default_timezone false s e (tok :: rest)
             = (Ok (ws, we), l3) ->
             out = match recurrence loc o with
                   | (Ok rr, log) =>
                       mkoutcome (Ok (assembled o ws we rr l3)) l3 log
                   | (Raise x, log) => mkoutcome (Raise x) l3 log
                   end).
  { intros ws we l3 H4. unfold out.
    eapply construct_event_steps; eassumption. }
  unfold localize_window in S.
  destruct (pytz_timezone tok) as [tz|].
  - specialize (S _ _ _ eq_refl). rewrite S.
    destruct (recurrence loc o) as [[rr|x] log]; simpl.
    + split.
      * split; [reflexivity|]. intros ev E. inversion E; subst.
        rewrite assembled_dtstart, assembled_dtend, assembled_summary.
        repeat split.
      * intros rr' log' _. eexists. reflexivity.
    + split.
      * split; [reflexivity|]. intros ev E. discriminate.
      * intros rr' log' E. discriminate.
  - specialize (S _ _ _ eq_refl). rewrite S.
    destruct (recurrence loc o) as [[rr|x] log]; simpl.
    + split.
      * split; [reflexivity|]. intros ev E. inversion E; subst.
        rewrite assembled_dtstart, assembled_dtend, assembled_summary.
        repeat split.
      * intros rr' log' _. eexists. reflexivity.
    + split.
      * split; [reflexivity|]. intros ev E. discriminate.
      * intros rr' log' E. discriminate.
Qed.

(** With a [repeat] argument that is supplied, is not ["none"] and is
    none of the four frequencies, no call returns an event; and every
    call whose start and end resolution, repair and timezone step
    complete hands the message to the fatal-reporting capability and
    raises [FatalError]. *)
Lemma unsupported_repeat_fatal_when_reached
        (date_list : list string) (loc : locale)
        (default_timezone : tzinfo) (o : options) :
  unsupported_repeat o = true ->
  (forall ev : event,
      returned (construct_event date_list loc default_timezone o) <> Ok ev)
  /\
  (forall s all_day l1 e0 l2 e w l3,
      guessdatetimefstr loc import_today date_list
        = (Ok (s, all_day), l1) ->
      resolve_end loc o s all_day l1 = (Ok e0, l2) ->
      repair all_day s e0 = Ok e ->
      localize_window default_timezone all_day s e l2 = (Ok w, l3) ->
      construct_event date_list loc default_timezone o =
      mkoutcome (Raise FatalError) l3 [msg_invalid_repeat]).
Proof.
  intros U. pose proof (@recurrence_unsupported _ loc o U) as R. split.
  - intros ev H. apply construct_event_returns in H.
    destruct H as (s & all_day & l1 & e0 & l2 & e & ws & we & l3 & rr & log
                   & _ & _ & _ & _ & G & _).
    rewrite R in G. discriminate.
  - intros s all_day l1 e0 l2 e [ws we] l3 H1 H2 H3 H4.
    rewrite (@construct_event_steps _ date_list loc default_timezone o
               s all_day l1 e0 l2 e ws we l3 H1 H2 H3 H4).
    rewrite R. reflexivity.
Qed.

(** C9.  A timed event whose start and end resolution have consumed
    every token: the timezone step indexes the first element of the
    empty list and raises [IndexError]; the call raises it, builds no
    event and hands nothing to the fatal-reporting capability. *)
Theorem timezone_step_on_empty_list
        (date_list : list string) (loc : locale)
        (default_timezone : tzinfo) (o : options)
        (s e0 e : datetime) (l1 : list string) :
  guessdatetimefstr loc import_today date_list = (Ok (s, false), l1) ->
  resolve_end loc o s false l1 = (Ok e0, []) ->
  repair false s e0 = Ok e ->
  localize_window default_timezone false s e [] = (Raise IndexError, [])
  /\
  construct_event date_list loc default_timezone o =
  mkoutcome (Raise IndexError) [] [].
Proof.
  intros H1 H2 H3. split; [reflexivity|].
  unfold construct_event. rewrite H1, H2, H3. reflexivity.
Qed.

(** C10.  A [datetime] passed as [dtstart] to [new_event] passes the
    [isinstance(dtstart, date)] test and is treated as its date: the call
    equals the call with the pure date, any two datetimes on the same day
    give the same result, and the start of a returned event is that date
    at the time of day of the next full hour of the clock. *)
Theorem new_event_drops_time_of_day
        (x : datetime) (dtend : option datetime) (summary : option string)
        (timezone : option tzinfo) (now : datetime) :
  isinstance_date (ADatetime x) = true
  /\
  new_event (Some (ADatetime x)) dtend summary timezone now =
  new_event (Some (ADate (dt_date x))) dtend summary timezone now
  /\
  (forall x' : datetime,
      dt_date x' = dt_date x ->
      new_event (Some (ADatetime x')) dtend summary timezone now =
      new_event (Some (ADatetime x)) dtend summary timezone now)
  /\
  (forall ev : event,
      new_event (Some (ADatetime x)) dtend summary timezone now = Ok ev ->
      exists hour inonehour : datetime,
        datetime_of_args (slice 0 4 (timetuple today)) = Ok hour /\
        add_timedelta hour 0 60 = Ok inonehour /\
        get "dtstart" ev =
          Some (PWhen (localize timezone
                         (combine (dt_date x) (dt_time inonehour))))).
Proof.
  split; [reflexivity|]. split; [reflexivity|]. split.
  - intros x' E. unfold new_event. simpl. rewrite E. reflexivity.
  - intros ev H. unfold new_event in H.
    destruct (datetime_of_args (slice 0 4 (timetuple today)))
      as [hour|err] eqn:E1; [|discriminate].
    simpl in H.
    destruct (add_timedelta hour 0 60) as [ioh|err] eqn:E2; [|discriminate].
    simpl in H.
    match type of H with
    | bind ?d _ = _ => destruct d as [dtend'|err]; [|discriminate]
    end.
    simpl in H. inversion H; subst.
    exists hour, ioh. repeat split. exact E2.
Qed.

End Claims.

(* ================================================================== *)
(** * The functions on concrete command lines *)
(* ================================================================== *)

(** The executable [strptime] returns datetimes only. *)
Lemma strptime_datetime_valid (str fmt : string) (x : datetime) :
  Strptime.strptime_datetime str fmt = Some x -> valid_datetime x = true.
Proof.
  unfold Strptime.strptime_datetime.
  destruct (Strptime.parse str fmt) as [f|]; [|discriminate].
  destruct (new_datetime _ _ _ _ _ _ _) as [y|err] eqn:E; [|discriminate].
  intros H. inversion H; subst. apply new_datetime_valid in E. tauto.
Qed.

(** C4.  The repair steps can raise: an all-day event from 5 March 2024
    to 28 February, typed without the year, has its exclusive end on
    29 February 2024; the end is before the start, so the year is
    advanced, and 29 February 2025 does not exist.  On any day the call
    raises [ValueError] out of the repair instead of producing a repaired
    pair; nothing is handed to the fatal-reporting capability. *)
Theorem leap_day_end_raises (clock loaded : datetime) :
  repair (X := Strptime.at_clock clock loaded) true
         (at_ 2024 3 5 0 0) (at_ 2024 2 28 0 0) = Raise ValueError
  /\
  construct_event (X := Strptime.at_clock clock loaded)
                  ["2024-03-05"; "02-28"; "x"] iso "Europe/Berlin" plain
  = mkoutcome (Raise ValueError) ["x"] [].
Proof.
  assert (R : repair (X := Strptime.at_clock clock loaded) true
                     (at_ 2024 3 5 0 0) (at_ 2024 2 28 0 0)
              = Raise ValueError).
  { unfold repair, repair_all_day.
    change (add_timedelta (at_ 2024 2 28 0 0) 1 0)
      with (Ok (at_ 2024 2 29 0 0)).
    cbn [bind]. change (dt_year (at_ 2024 2 29 0 0)) with 2024.
    change (dt_year (at_ 2024 3 5 0 0)) with 2024.
    rewrite andb_negb_r. reflexivity. }
  split; [exact R|].
  unfold construct_event.
  change (guessdatetimefstr (X := Strptime.at_clock clock loaded) iso
            import_today ["2024-03-05"; "02-28"; "x"])
    with (Ok (at_ 2024 3 5 0 0, true), ["02-28"; "x"]).
  cbv iota beta.
  change (resolve_end (X := Strptime.at_clock clock loaded) iso plain
            (at_ 2024 3 5 0 0) true ["02-28"; "x"])
    with (Ok (at_ 2024 2 28 0 0), ["x"]).
  cbv iota beta. rewrite R. reflexivity.
Qed.

(** C5.  A timed event whose resolved end is before its start gets, as
    its end, the date of the start with the hour and minute of the
    resolved end, and the day after when that is still before the start.
    With the ISO formats the tokens 2024-06-01, 09:00, 08:00, standup
    give the start 2024-06-01 09:00, the resolved end 2024-06-01 08:00
    and the repaired end 2024-06-02 08:00. *)
Theorem same_day_time_repair :
  (forall (X : Externals) (date_list : list string) (loc : locale)
          (default_timezone : tzinfo) (o : options)
          (s e0 : datetime) (l1 l2 : list string),
      (forall (str fmt : string) (x : datetime),
          datetime_strptime str fmt = Some x -> valid_datetime x = true) ->
      guessdatetimefstr loc import_today date_list = (Ok (s, false), l1) ->
      resolve_end loc o s false l1 = (Ok e0, l2) ->
      dt_lt e0 s = true ->
      let e1 := combine (dt_date s)
                        (mktime (t_hour (dt_time e0))
                                (t_minute (dt_time e0)) 0 0) in
      repair false s e0
      = (if dt_lt e1 s then add_timedelta e1 1 0 else Ok e1)
      /\
      forall ev : event,
        returned (construct_event date_list loc default_timezone o)
        = Ok ev ->
        exists (e : datetime) (tz : tzinfo),
          (if dt_lt e1 s then add_timedelta e1 1 0 else Ok e1) = Ok e /\
          get "dtstart" ev = Some (PWhen (Aware s tz)) /\
          get "dtend" ev = Some (PWhen (Aware e tz)))
  /\
  (let tokens := ["2024-06-01"; "09:00"; "08:00"; "standup"] in
   guessdatetimefstr (X := may2024) iso (@import_today may2024) tokens
   = (Ok (at_ 2024 6 1 9 0, false), ["08:00"; "standup"])
   /\
   resolve_end (X := may2024) iso plain (at_ 2024 6 1 9 0) false
               ["08:00"; "standup"]
   = (Ok (at_ 2024 6 1 8 0), ["standup"])
   /\
   exists ev : event (X := may2024),
     returned (construct_event (X := may2024) tokens iso
                               berlin plain) = Ok ev /\
     get "dtstart" ev
     = Some (PWhen (Aware (at_ 2024 6 1 9 0) berlin)) /\
     get "dtend" ev
     = Some (PWhen (Aware (at_ 2024 6 2 8 0) berlin))).
Proof.
  split.
  - intros X date_list loc default_timezone o s e0 l1 l2 V H1 H2 L.
    exact (@timed_end_before_start X date_list loc default_timezone o
             s e0 l1 l2 V H1 H2 L).
  - cbv zeta. split; [vm_compute; reflexivity|].
    split; [vm_compute; reflexivity|].
    exists (event_of
              (returned (construct_event (X := may2024)
                           ["2024-06-01"; "09:00"; "08:00"; "standup"]
                           iso berlin plain))).
    repeat split; reflexivity.
Qed.

(** C6.  The resolver can consume tokens of a grammar that then fails.
    With formats that carry the year, on a day of 2023, the tokens
    29.02.2024 and 10:00 are parsed and popped by the first grammar,
    whose rewrite of the year to 2023 then raises [ValueError].  So a call
    that succeeds with the time grammar (one token) has removed three
    tokens, and a call in which no grammar matches has removed two. *)
Theorem resolver_consumes_before_failing :
  guessdatetimefstr (X := feb2023) dotted (@import_today feb2023)
                    ["29.02.2024"; "10:00"; "11:00"; "x"]
  = (Ok (at_ 2023 2 10 11 0, false), ["x"])
  /\
  timefstr_day (X := feb2023) (@import_today feb2023) (timeformat dotted)
               ["11:00"; "x"]
  = (Ok (at_ 2023 2 10 11 0), ["x"])
  /\
  guessdatetimefstr (X := feb2023) dotted (@import_today feb2023)
                    ["29.02.2024"; "10:00"; "x"]
  = (Raise ValueError, ["x"]).
Proof.
  split; [vm_compute; reflexivity|].
  split; vm_compute; reflexivity.
Qed.

(** C8.  An unsupported [repeat] keyword is not always answered with
    the fatal report: on two times and nothing else the timezone step
    indexes the empty list first, so the call raises [IndexError] with
    nothing reported.  The all-day path, which has no timezone step,
    reaches the check on the same keyword with the same empty remainder
    and raises [FatalError] with its message. *)
Theorem unsupported_repeat_lost_to_index_error :
  let o := repeating "fortnightly" in
  unsupported_repeat o = true
  /\ construct_event (X := may2024) ["09:00"; "10:00"] iso berlin o
     = mkoutcome (Raise IndexError) [] []
  /\ construct_event (X := may2024) ["2024-06-01"; "2024-06-02"] iso
                     berlin o
     = mkoutcome (Raise FatalError) [] [msg_invalid_repeat].
Proof.
  cbv zeta. split; [reflexivity|]. split; reflexivity.
Qed.

(** ** The properties at concrete command lines *)

(** C1 on the stand-up of 1 June 2024. *)
Lemma construct_event_end_not_before_start_witness :
  exists ev : event (X := may2024),
    returned (construct_event (X := may2024)
                ["2024-06-01"; "09:00"; "08:00"; "standup"]
                iso berlin plain) = Ok ev
    /\ ((exists s e : date,
            get "dtstart" ev = Some (PWhen (Day s)) /\
            get "dtend" ev = Some (PWhen (Day e)) /\
            date_lt e s = false)
        \/
        (exists (s e : datetime) (tz : @tzinfo may2024),
            get "dtstart" ev = Some (PWhen (Aware s tz)) /\
            get "dtend" ev = Some (PWhen (Aware e tz)) /\
            dt_lt e s = false)).
Proof.
  exists (event_of
            (returned (construct_event (X := may2024)
                         ["2024-06-01"; "09:00"; "08:00"; "standup"]
                         iso berlin plain))).
  split.
  - reflexivity.
  - apply (@construct_event_end_not_before_start may2024
             ["2024-06-01"; "09:00"; "08:00"; "standup"] iso berlin plain).
    reflexivity.
Defined.

(** C2 on an all-day event typed without any text. *)
Lemma construct_event_nothing_after_start_witness :
  guessdatetimefstr (X := may2024) iso (@import_today may2024)
                    ["2024-06-01"]
  = (Ok (at_ 2024 6 1 0 0, true), [])
  /\
  construct_event (X := may2024) ["2024-06-01"] iso berlin plain
  = mkoutcome (Raise IndexError) [] [].
Proof.
  assert (H : guessdatetimefstr (X := may2024) iso (@import_today may2024)
                                ["2024-06-01"]
              = (Ok (at_ 2024 6 1 0 0, true), []))
    by reflexivity.
  split; [exact H|].
  exact (@construct_event_nothing_after_start may2024 ["2024-06-01"] iso
           berlin plain (at_ 2024 6 1 0 0) true H).
Defined.

(** C3 as the specification states it fails when a description is
    supplied and no location: the text is split all the same, so the
    summary is not the whole remainder and the supplied description is
    not kept. *)
Lemma supplied_description_is_split :
  let o := described "agenda" in
  split_text_as_specified o "party :: cake"
  = ("party :: cake", Some "agenda")
  /\
  split_text o "party :: cake" = ("party", Some "cake")
  /\
  exists ev : event (X := may2024),
    returned (construct_event (X := may2024)
                ["12-25"; "party"; "::"; "cake"] iso berlin o) = Ok ev /\
    get "summary" ev = Some (PText "party") /\
    get "summary" ev <> Some (PText "party :: cake") /\
    get "description" ev = Some (PText "cake") /\
    get "description" ev <> Some (PText "agenda").
Proof.
  cbv zeta. split; [reflexivity|]. split; [reflexivity|].
  exists (event_of
            (returned (construct_event (X := may2024)
                         ["12-25"; "party"; "::"; "cake"] iso berlin
                         (described "agenda")))).
  split; [reflexivity|].
  repeat split; try reflexivity.
  - intros H.
    change (Some (PText (X := may2024) "party")
            = Some (PText "party :: cake")) in H.
    discriminate H.
  - intros H.
    change (Some (PText (X := may2024) "cake")
            = Some (PText "agenda")) in H.
    discriminate H.
Defined.

(** C3 as amended, on the same command line. *)
Lemma summary_and_description_split_witness :
  exists ev : event (X := may2024),
    returned (construct_event (X := may2024)
                ["12-25"; "party"; "::"; "cake"] iso berlin
                (described "agenda")) = Ok ev
    /\ first_occurrence " :: " "party :: cake" "party" "cake"
    /\ get "summary" ev = Some (PText "party")
    /\ get "description" ev = attached (Some "cake").
Proof.
  exists (event_of
            (returned (construct_event (X := may2024)
                         ["12-25"; "party"; "::"; "cake"] iso berlin
                         (described "agenda")))).
  split; [reflexivity|].
  assert (F : first_occurrence " :: " "party :: cake" "party" "cake").
  { assert (Hsep : " :: " <> EmptyString) by discriminate.
    exact (split_once_spec Hsep "party :: cake"). }
  split; [exact F|].
  refine (proj1 (proj2 (@summary_and_description_split may2024
                          ["12-25"; "party"; "::"; "cake"] iso berlin
                          (described "agenda") _ _) _) "party" "cake" F).
  - reflexivity.
  - reflexivity.
Defined.

(** C5 on the stand-up of 1 June 2024. *)
Lemma same_day_time_repair_witness :
  let tokens := ["2024-06-01"; "09:00"; "08:00"; "standup"] in
  let s := at_ 2024 6 1 9 0 in
  let e0 := at_ 2024 6 1 8 0 in
  guessdatetimefstr (X := may2024) iso (@import_today may2024) tokens
  = (Ok (s, false), ["08:00"; "standup"])
  /\ resolve_end (X := may2024) iso plain s false ["08:00"; "standup"]
     = (Ok e0, ["standup"])
  /\ dt_lt e0 s = true
  /\ repair (X := may2024) false s e0 = Ok (at_ 2024 6 2 8 0).
Proof.
  cbv zeta.
  assert (H1 : guessdatetimefstr (X := may2024) iso (@import_today may2024)
                 ["2024-06-01"; "09:00"; "08:00"; "standup"]
               = (Ok (at_ 2024 6 1 9 0, false), ["08:00"; "standup"]))
    by reflexivity.
  assert (H2 : resolve_end (X := may2024) iso plain (at_ 2024 6 1 9 0)
                 false ["08:00"; "standup"]
               = (Ok (at_ 2024 6 1 8 0), ["standup"]))
    by reflexivity.
  assert (L : dt_lt (at_ 2024 6 1 8 0) (at_ 2024 6 1 9 0) = true)
    by reflexivity.
  split; [exact H1|]. split; [exact H2|]. split; [exact L|].
  exact (proj1 (proj1 same_day_time_repair may2024
                  ["2024-06-01"; "09:00"; "08:00"; "standup"] iso berlin
                  plain (at_ 2024 6 1 9 0) (at_ 2024 6 1 8 0)
                  ["08:00"; "standup"] ["standup"]
                  strptime_datetime_valid H1 H2 L)).
Defined.

(** C7 on a token that names no timezone: it stays in the list and the
    event is in the default timezone, with the token as its summary. *)
Lemma timezone_token_witness :
  let tokens := ["2024-06-01"; "09:00"; "08:00"; "standup"] in
  let out := construct_event (X := may2024) tokens iso berlin plain in
  guessdatetimefstr (X := may2024) iso (@import_today may2024) tokens
  = (Ok (at_ 2024 6 1 9 0, false), ["08:00"; "standup"])
  /\ resolve_end (X := may2024) iso plain (at_ 2024 6 1 9 0) false
                 ["08:00"; "standup"]
     = (Ok (at_ 2024 6 1 8 0), ["standup"])
  /\ repair (X := may2024) false (at_ 2024 6 1 9 0) (at_ 2024 6 1 8 0)
     = Ok (at_ 2024 6 2 8 0)
  /\ tokens_left out = ["standup"]
  /\ (forall ev : event (X := may2024),
         returned out = Ok ev ->
         get "dtstart" ev = Some (PWhen (Aware (at_ 2024 6 1 9 0) berlin))
         /\ get "dtend" ev = Some (PWhen (Aware (at_ 2024 6 2 8 0) berlin))
         /\ get "summary" ev = Some (PText "standup"))
  /\ exists ev : event (X := may2024), returned out = Ok ev.
Proof.
  cbv zeta.
  assert (H1 : guessdatetimefstr (X := may2024) iso (@import_today may2024)
                 ["2024-06-01"; "09:00"; "08:00"; "standup"]
               = (Ok (at_ 2024 6 1 9 0, false), ["08:00"; "standup"]))
    by reflexivity.
  assert (H2 : resolve_end (X := may2024) iso plain (at_ 2024 6 1 9 0)
                 false ["08:00"; "standup"]
               = (Ok (at_ 2024 6 1 8 0), ["standup"]))
    by reflexivity.
  assert (H3 : repair (X := may2024) false (at_ 2024 6 1 9 0)
                 (at_ 2024 6 1 8 0) = Ok (at_ 2024 6 2 8 0))
    by reflexivity.
  split; [exact H1|]. split; [exact H2|]. split; [exact H3|].
  pose proof (@timezone_token may2024
                ["2024-06-01"; "09:00"; "08:00"; "standup"] iso berlin plain
                (at_ 2024 6 1 9 0) (at_ 2024 6 1 8 0) (at_ 2024 6 2 8 0)
                ["08:00"; "standup"] [] "standup" H1 H2 H3) as T.
  cbv zeta in T.
  change (pytz_timezone (Externals := may2024) "standup")
    with (@None (@tzinfo may2024)) in T.
  destruct T as [[T1 T2] T3].
  split; [exact T1|]. split; [exact T2|].
  exact (T3 None [] eq_refl).
Defined.

(** C9 on two times and nothing else. *)
Lemma timezone_step_on_empty_list_witness :
  guessdatetimefstr (X := may2024) iso (@import_today may2024)
                    ["09:00"; "10:00"]
  = (Ok (at_ 2024 5 20 9 0, false), ["10:00"])
  /\ resolve_end (X := may2024) iso plain (at_ 2024 5 20 9 0) false
                 ["10:00"]
     = (Ok (at_ 2024 5 20 10 0), [])
  /\ repair (X := may2024) false (at_ 2024 5 20 9 0) (at_ 2024 5 20 10 0)
     = Ok (at_ 2024 5 20 10 0)
  /\ construct_event (X := may2024) ["09:00"; "10:00"] iso berlin plain
     = mkoutcome (Raise IndexError) [] [].
Proof.
  assert (H1 : guessdatetimefstr (X := may2024) iso (@import_today may2024)
                 ["09:00"; "10:00"]
               = (Ok (at_ 2024 5 20 9 0, false), ["10:00"]))
    by reflexivity.
  assert (H2 : resolve_end (X := may2024) iso plain (at_ 2024 5 20 9 0)
                 false ["10:00"]
               = (Ok (at_ 2024 5 20 10 0), []))
    by reflexivity.
  assert (H3 : repair (X := may2024) false (at_ 2024 5 20 9 0)
                 (at_ 2024 5 20 10 0) = Ok (at_ 2024 5 20 10 0))
    by reflexivity.
  split; [exact H1|]. split; [exact H2|]. split; [exact H3|].
  exact (proj2 (@timezone_step_on_empty_list may2024 ["09:00"; "10:00"]
                  iso berlin plain (at_ 2024 5 20 9 0) (at_ 2024 5 20 10 0)
                  (at_ 2024 5 20 10 0) ["10:00"] H1 H2 H3)).
Defined.

(** C10 on 1 July 2024, 09:30, passed at 14:35: the event starts at
    15:00 on 1 July. *)
Lemma new_event_drops_time_of_day_witness :
  exists ev : event (X := may2024),
    new_event (X := may2024) (Some (ADatetime (at_ 2024 7 1 9 30)))
              None None None (_now plain) = Ok ev
    /\ exists hour inonehour : datetime,
        datetime_of_args (slice 0 4 (timetuple (@today may2024)))
        = Ok hour /\
        add_timedelta hour 0 60 = Ok inonehour /\
        get "dtstart" ev =
          Some (PWhen (localize None
                         (combine (dt_date (at_ 2024 7 1 9 30))
                                  (dt_time inonehour)))).
Proof.
  exists (event_of
            (new_event (X := may2024)
               (Some (ADatetime (at_ 2024 7 1 9 30)))
               None None None (_now plain))).
  split.
  - reflexivity.
  - apply (proj2 (proj2 (proj2
             (@new_event_drops_time_of_day may2024 (at_ 2024 7 1 9 30)
                None None None (_now plain))))).
    reflexivity.
Defined.

(* ================================================================== *)
(** * The token-consuming parsers *)
(* ================================================================== *)

Section Tokens.

Context {X : Externals}.

Lemma pop_front_ok (n : nat) (l rest : list string) (u : unit) :
  pop_front n l = (Ok u, rest) ->
  (n <= List.length l)%nat /\ rest = skipn n l.
Proof.
  revert l. induction n as [|n IH]; intros l H; simpl in H.
  - inversion H; subst. split; [apply Nat.le_0_l | reflexivity].
  - destruct l as [|t l]; [discriminate|].
    destruct (IH _ H) as [L E]. simpl. split; [lia | exact E].
Qed.

Lemma pop_front_enough (n : nat) (l : list string) :
  (n <= List.length l)%nat -> pop_front n l = (Ok tt, skipn n l).
Proof.
  revert l. induction n as [|n IH]; intros l L; simpl.
  - reflexivity.
  - destruct l as [|t l]; simpl in L; [lia|]. apply IH. lia.
Qed.

Lemma pop_front_raises (n : nat) (l rest : list string) (e : exn) :
  pop_front n l = (Raise e, rest) ->
  e = IndexError /\ rest = [] /\ (List.length l < n)%nat.
Proof.
  revert l. induction n as [|n IH]; intros l H; simpl in H.
  - discriminate.
  - destruct l as [|t l].
    + inversion H; subst. simpl. repeat split. lia.
    + destruct (IH _ H) as (E & R & L). simpl. repeat split; try assumption.
      lia.
Qed.

(** The hour and minute of a [struct_time] make a time without
    seconds. *)
Lemma time_of_hour_minute (st : list Z) (t : time) :
  time_of_args (slice 3 5 st) = Ok t ->
  valid_time t = true /\ t_second t = 0 /\ t_microsecond t = 0.
Proof.
  unfold slice. simpl.
  destruct st as [|a [|b [|c [|h [|m r]]]]]; simpl; unfold new_time;
    match goal with
    | |- (if ?v then _ else _) = _ -> _ => destruct v eqn:V
    end; intros H; inversion H; subst; simpl; auto.
Qed.

Lemma timefstr_cases (timeformat : string)
        (date_list : list string) :
  match timefstr timeformat date_list with
  | (Ok dtstart, rest) =>
      exists (tok : string) (st : list Z),
        date_list = tok :: rest /\
        time_strptime tok timeformat = Some st /\
        time_of_args (slice 3 5 st) = Ok (dt_time dtstart) /\
        dt_date dtstart = dt_date today /\
        t_second (dt_time dtstart) = 0 /\
        t_microsecond (dt_time dtstart) = 0
  | (Raise e, rest) =>
      rest = date_list /\ (e = IndexError <-> date_list = [])
  end.
Proof.
  unfold timefstr. destruct date_list as [|tok rest].
  - split; [reflexivity|]. split; reflexivity.
  - destruct (time_strptime tok timeformat) as [st|] eqn:E.
    + destruct (time_of_args (slice 3 5 st)) as [t|e] eqn:T.
      * exists tok, st. simpl.
        destruct (time_of_hour_minute _ T) as (_ & S & U).
        repeat split; assumption.
      * split; [reflexivity|]. split; [|discriminate].
        intros ->. unfold slice in T. simpl in T.
        destruct st as [|a [|b [|c [|h [|m r]]]]]; simpl in T;
          unfold new_time in T;
          match type of T with
          | (if ?v then _ else _) = _ => destruct v
          end; discriminate.
    + split; [reflexivity|]. split; discriminate.
Qed.

Lemma datetimefstr_ok (dtformat : string)
        (date_list rest : list string) (dtstart : datetime) :
  datetimefstr dtformat date_list = (Ok dtstart, rest) ->
  let parts := (count_spaces dtformat + 1)%nat in
  (parts <= List.length date_list)%nat /\
  rest = skipn parts date_list /\
  datetime_strptime (join " " (firstn parts date_list)) dtformat
  = Some dtstart.
Proof.
  unfold datetimefstr, slice. rewrite Nat.sub_0_r. simpl skipn.
  destruct (datetime_strptime _ dtformat) as [x|] eqn:E; [|discriminate].
  destruct (pop_front _ date_list) as [[u|e] r] eqn:P; [|discriminate].
  intros H. inversion H; subst.
  destruct (pop_front_ok _ _ P) as [L R]. auto.
Qed.

Lemma datetimefstr_raise (dtformat : string)
        (date_list rest : list string) (e : exn) :
  datetimefstr dtformat date_list = (Raise e, rest) ->
  let parts := (count_spaces dtformat + 1)%nat in
  (e = ValueError /\ rest = date_list /\
   datetime_strptime (join " " (firstn parts date_list)) dtformat = None)
  \/
  (e = IndexError /\ rest = [] /\
   (List.length date_list < parts)%nat /\
   datetime_strptime (join " " date_list) dtformat <> None).
Proof.
  unfold datetimefstr, slice. rewrite Nat.sub_0_r. simpl skipn.
  destruct (datetime_strptime _ dtformat) as [x|] eqn:E.
  - destruct (pop_front _ date_list) as [[u|e'] r] eqn:P; [discriminate|].
    intros H. inversion H; subst. right.
    destruct (pop_front_raises _ _ P) as (E1 & E2 & L).
    repeat split; try assumption.
    rewrite firstn_all2 in E by lia. rewrite E. discriminate.
  - intros H. inversion H; subst. left. auto.
Qed.

(** ** Tokens are only removed from the front *)

Lemma skipn_twice (j k : nat) (l : list string) :
  skipn k (skipn j l) = skipn (j + k) l.
Proof. rewrite skipn_skipn. f_equal. apply Nat.add_comm. Qed.

Lemma timefstr_front fmt l r rest :
  timefstr fmt l = (r, rest) -> exists k, rest = skipn k l.
Proof.
  unfold timefstr. destruct l as [|tok l'].
  - intros H. inversion H. exists 0%nat. reflexivity.
  - destruct (time_strptime tok fmt) as [st|].
    + destruct (time_of_args (slice 3 5 st)); intros H; inversion H.
      * exists 1%nat. reflexivity.
      * exists 0%nat. reflexivity.
    + intros H. inversion H. exists 0%nat. reflexivity.
Qed.

Lemma datetimefstr_front fmt l r rest :
  datetimefstr fmt l = (r, rest) -> exists k, rest = skipn k l.
Proof.
  destruct r as [x|e]; intros H.
  - apply datetimefstr_ok in H.
    destruct H as (_ & R & _). eexists. exact R.
  - apply datetimefstr_raise in H.
    destruct H as [(_ & R & _)|(_ & R & L & _)].
    + exists 0%nat. exact R.
    + exists (List.length l). rewrite skipn_all. exact R.
Qed.

Lemma datefstr_year_front d fmt l r rest :
  datefstr_year d fmt l = (r, rest) -> exists k, rest = skipn k l.
Proof.
  unfold datefstr_year.
  destruct (datetimefstr fmt l) as [[y|e] r'] eqn:E; intros H;
    inversion H; subst; eapply datetimefstr_front; exact E.
Qed.

Lemma timefstr_day_front d fmt l r rest :
  timefstr_day d fmt l = (r, rest) -> exists k, rest = skipn k l.
Proof.
  unfold timefstr_day.
  destruct (timefstr fmt l) as [[y|e] r'] eqn:E; intros H;
    inversion H; subst; eapply timefstr_front; exact E.
Qed.

Lemma first_match_front gs l r rest :
  (forall fn ad, In (fn, ad) gs ->
                 forall l' r' rest', fn l' = (r', rest') ->
                                     exists k, rest' = skipn k l') ->
  first_match gs l = (r, rest) -> exists k, rest = skipn k l.
Proof.
  revert l. induction gs as [|[fn ad] gs IH]; intros l F H; simpl in H.
  - inversion H. exists 0%nat. reflexivity.
  - destruct (fn l) as [[y|e] r'] eqn:E.
    + inversion H; subst. eapply F; [left; reflexivity | exact E].
    + destruct (F fn ad (or_introl eq_refl) _ _ _ E) as [j J].
      destruct e; try (inversion H; subst; exists j; reflexivity).
      destruct (IH r') as [k K].
      * intros fn' ad' I. apply (F fn' ad'). right. exact I.
      * exact H.
      * exists (j + k)%nat. rewrite K, J. apply skipn_twice.
Qed.

Lemma guessdatetimefstr_front loc d l r rest :
  guessdatetimefstr loc d l = (r, rest) -> exists k, rest = skipn k l.
Proof.
  apply first_match_front. intros fn ad I l' r' rest'.
  unfold grammars in I. simpl in I.
  destruct I as [I|[I|[I|[I|[I|[]]]]]]; inversion I; subst.
  - apply datefstr_year_front.
  - apply datetimefstr_front.
  - apply timefstr_day_front.
  - apply datefstr_year_front.
  - apply datetimefstr_front.
Qed.

(** X4.  Whatever a call of the resolver or of [construct_event] ends
    in, the token list it leaves is the list it got with some tokens
    removed from the front: nothing is reordered, replaced or removed
    from the middle. *)
Theorem tokens_only_leave_from_the_front
        (date_list : list string) (loc : locale) :
  (forall default_day : datetime,
      exists k : nat,
        snd (guessdatetimefstr loc default_day date_list)
        = skipn k date_list)
  /\
  (forall (default_timezone : tzinfo) (o : options),
      exists k : nat,
        tokens_left (construct_event date_list loc default_timezone o)
        = skipn k date_list).
Proof.
  split.
  - intros d.
    destruct (guessdatetimefstr loc d date_list) as [r rest] eqn:E.
    eapply guessdatetimefstr_front. exact E.
  - intros tz o. unfold construct_event.
    destruct (guessdatetimefstr loc import_today date_list)
      as [r1 l1] eqn:E1.
    destruct (guessdatetimefstr_front _ _ _ E1) as [k1 K1].
    destruct r1 as [[s ad]|e].
    2:{ destruct e; exists k1; exact K1. }
    assert (F2 : forall r2 l2, resolve_end loc o s ad l1 = (r2, l2) ->
                               exists k, l2 = skipn k date_list).
    { unfold resolve_end. intros r2 l2.
      destruct (guessdatetimefstr loc s l1) as [r l] eqn:E2.
      destruct (guessdatetimefstr_front _ _ _ E2) as [k2 K2].
      intros H. exists (k1 + k2)%nat. rewrite <- skipn_twice, <- K1.
      destruct r as [[x b]|e]; [|destruct e]; inversion H; subst;
        reflexivity. }
    destruct (resolve_end loc o s ad l1) as [r2 l2] eqn:E2.
    destruct (F2 _ _ eq_refl) as [k2 K2].
    destruct r2 as [e0|e]; [|exists k2; exact K2].
    destruct (repair ad s e0) as [e|x]; [|exists k2; exact K2].
    assert (F3 : forall r3 l3,
               localize_window tz ad s e l2 = (r3, l3) ->
               exists k, l3 = skipn k date_list).
    { unfold localize_window. intros r3 l3. destruct ad.
      - intros H. inversion H; subst. exists k2. reflexivity.
      - destruct l2 as [|tok rest] eqn:L2.
        + intros H. inversion H; subst. exists k2. exact K2.
        + destruct (pytz_timezone tok); intros H; inversion H; subst.
          * exists (k2 + 1)%nat. rewrite <- skipn_twice, <- K2.
            reflexivity.
          * exists k2. exact K2. }
    destruct (localize_window tz ad s e l2) as [r3 l3] eqn:E3.
    destruct (F3 _ _ eq_refl) as [k3 K3].
    destruct r3 as [[ws we]|x]; [|exists k3; exact K3].
    destruct (split_text o _) as [summary descr].
    destruct (recurrence loc o) as [[rr|x] log]; exists k3; exact K3.
Qed.

(** X1.  [timefstr] either takes exactly the first token, which then
    parses as a time, and returns that hour and minute (seconds zero) on
    today's date; or it raises and leaves the list as it was, with
    [IndexError] exactly on the empty list. *)
Theorem timefstr_takes_first_token (timeformat : string)
        (date_list : list string) :
  match timefstr timeformat date_list with
  | (Ok dtstart, rest) =>
      exists (tok : string) (st : list Z),
        date_list = tok :: rest /\
        time_strptime tok timeformat = Some st /\
        time_of_args (slice 3 5 st) = Ok (dt_time dtstart) /\
        dt_date dtstart = dt_date today /\
        t_second (dt_time dtstart) = 0 /\
        t_microsecond (dt_time dtstart) = 0
  | (Raise e, rest) =>
      rest = date_list /\ (e = IndexError <-> date_list = [])
  end.
Proof.
  pose proof (timefstr_cases timeformat date_list) as T.
  destruct (timefstr timeformat date_list) as [[x|e] rest]; exact T.
Qed.

(** X2.  [datetimefstr] on success has parsed the first
    [count(' ') + 1] tokens, joined by blanks, as one string, and has
    removed exactly those tokens, of which the list had enough. *)
Theorem datetimefstr_takes_its_tokens (dtformat : string)
        (date_list rest : list string) (dtstart : datetime) :
  datetimefstr dtformat date_list = (Ok dtstart, rest) ->
  let parts := (count_spaces dtformat + 1)%nat in
  (parts <= List.length date_list)%nat /\
  rest = skipn parts date_list /\
  datetime_strptime (join " " (firstn parts date_list)) dtformat
  = Some dtstart.
Proof.
  intros H parts. unfold parts. apply datetimefstr_ok. exact H.
Qed.

(** X3.  [datetimefstr] raises [ValueError] exactly when the joined
    tokens do not parse, and then the list is unchanged; it raises
    [IndexError] exactly when they parse although the list is shorter
    than the format has parts, and then the list has been emptied. *)
Theorem datetimefstr_failures (dtformat : string)
        (date_list rest : list string) (e : exn) :
  datetimefstr dtformat date_list = (Raise e, rest) ->
  let parts := (count_spaces dtformat + 1)%nat in
  (e = ValueError /\ rest = date_list /\
   datetime_strptime (join " " (firstn parts date_list)) dtformat = None)
  \/
  (e = IndexError /\ rest = [] /\
   (List.length date_list < parts)%nat /\
   datetime_strptime (join " " date_list) dtformat <> None).
Proof.
  intros H parts. unfold parts. apply datetimefstr_raise. exact H.
Qed.

End Tokens.

(* ================================================================== *)
(** * The fallback resolver *)
(* ================================================================== *)

Section Resolver.

Context {X : Externals}.

Lemma days_in_month_leap (y y' m : Z) :
  is_leap y' = true -> days_in_month y m <= days_in_month y' m.
Proof.
  intros L. unfold days_in_month. rewrite L.
  destruct (m =? 2); [destruct (is_leap y); lia|].
  destruct ((m =? 4) || (m =? 6) || (m =? 9) || (m =? 11)); lia.
Qed.

(** In a leap year every month and day can be kept: the rewrite of the
    year does not fail. *)
Lemma year_rewrite_leap (d x : datetime) :
  valid_datetime d = true -> valid_datetime x = true ->
  is_leap (dt_year d) = true ->
  exists y : datetime,
    datetime_of_args (slice 0 1 (timetuple d) ++ slice 1 5 (timetuple x))
    = Ok y.
Proof.
  intros Vd Vx L. unfold slice. simpl. unfold new_datetime.
  match goal with
  | |- exists y, (if ?v then _ else _) = _ =>
      assert (V : v = true); [|rewrite V; eexists; reflexivity]
  end.
  unfold valid_datetime in *.
  apply andb_prop in Vd. destruct Vd as [Vd _].
  apply andb_prop in Vx. destruct Vx as [Vxd Vxt].
  apply valid_date_spec in Vd. apply valid_date_spec in Vxd.
  apply valid_time_spec in Vxt.
  apply andb_true_intro. split.
  - apply valid_date_spec. simpl.
    pose proof (@days_in_month_leap (d_year (dt_date x)) (dt_year d)
                  (d_month (dt_date x)) L).
    unfold dt_year in *. lia.
  - apply valid_time_spec. simpl. lia.
Qed.

Lemma date_and_time_valid (d : datetime) (t : time) :
  valid_datetime d = true -> valid_time t = true ->
  exists y : datetime,
    datetime_of_args (slice 0 3 (timetuple d)
                      ++ slice 3 5 (timetuple (combine (dt_date today) t)))
    = Ok y /\
    y = combine (dt_date d) (mktime (t_hour t) (t_minute t) 0 0).
Proof.
  intros Vd Vt. unfold slice. simpl. unfold new_datetime.
  match goal with
  | |- exists y, (if ?v then _ else _) = _ /\ _ =>
      assert (V : v = true)
  end.
  { unfold valid_datetime in *. simpl.
    apply andb_prop in Vd. destruct Vd as [Vd _].
    apply andb_true_intro. split.
    - destruct (dt_date d). exact Vd.
    - apply valid_time_spec in Vt. apply valid_time_spec. simpl. lia. }
  rewrite V. eexists. split; [reflexivity|].
  unfold combine. destruct (dt_date d). reflexivity.
Qed.

Section Leap.

Hypothesis strptime_valid :
  forall (str fmt : string) (x : datetime),
    datetime_strptime str fmt = Some x -> valid_datetime x = true.

Variable default_day : datetime.
Hypothesis default_day_valid : valid_datetime default_day = true.
Hypothesis default_day_leap : is_leap (dt_year default_day) = true.

Lemma datefstr_year_leap fmt l r rest :
  datefstr_year default_day fmt l = (r, rest) ->
  match r with
  | Ok _ => (count_spaces fmt + 1 <= List.length l)%nat /\
            rest = skipn (count_spaces fmt + 1) l
  | Raise ValueError => rest = l
  | Raise _ => True
  end.
Proof.
  unfold datefstr_year.
  destruct (datetimefstr fmt l) as [[y|e] r'] eqn:E.
  - pose proof (datetimefstr_valid strptime_valid _ _ E) as Vy.
    destruct (@year_rewrite_leap default_day y default_day_valid Vy
                                 default_day_leap) as [z Z].
    rewrite Z.
    intros H. inversion H; subst.
    apply datetimefstr_ok in E. tauto.
  - intros H. inversion H; subst.
    destruct e; try exact I.
    apply datetimefstr_raise in E.
    destruct E as [(_ & R & _)|(D & _)]; [exact R | discriminate].
Qed.

Lemma datetimefstr_exact fmt l r rest :
  datetimefstr fmt l = (r, rest) ->
  match r with
  | Ok _ => (count_spaces fmt + 1 <= List.length l)%nat /\
            rest = skipn (count_spaces fmt + 1) l
  | Raise ValueError => rest = l
  | Raise _ => True
  end.
Proof.
  destruct r as [x|e]; intros H.
  - apply datetimefstr_ok in H. tauto.
  - destruct e; try exact I.
    apply datetimefstr_raise in H.
    destruct H as [(_ & R & _)|(D & _)]; [exact R | discriminate].
Qed.

Lemma timefstr_day_exact fmt l r rest :
  timefstr_day default_day fmt l = (r, rest) ->
  match r with
  | Ok _ => (1 <= List.length l)%nat /\ rest = skipn 1 l
  | Raise ValueError => rest = l
  | Raise _ => True
  end.
Proof.
  unfold timefstr_day.
  pose proof (timefstr_cases fmt l) as T.
  destruct (timefstr fmt l) as [[y|e] r'].
  - destruct T as (tok & st & -> & _ & Ht & Hd & _).
    destruct (time_of_hour_minute _ Ht) as (Vt & _).
    destruct (@date_and_time_valid default_day (dt_time y)
                default_day_valid Vt) as (z & Z & _).
    replace y with (combine (dt_date today) (dt_time y))
      by (destruct y; simpl in *; subst; reflexivity).
    rewrite Z. intros H. inversion H; subst. simpl. split; [lia|reflexivity].
  - destruct T as [-> _]. intros H. inversion H; subst.
    destruct e; exact I || reflexivity.
Qed.

(** X5.  With a leap year as reference (and a [strptime] that returns
    datetimes) the resolver consumes exactly the tokens of the grammar
    that matched, and nothing when it ends in [ValueError]. *)
Theorem resolver_exact_in_leap_year (loc : locale) (l : list string) :
  match guessdatetimefstr loc default_day l with
  | (Ok (_, all_day), rest) =>
      exists k : nat,
        In (k, all_day) (token_counts loc) /\
        (k <= List.length l)%nat /\ rest = skipn k l
  | (Raise ValueError, rest) => rest = l
  | (Raise _, _) => True
  end.
Proof.
  unfold guessdatetimefstr, grammars, token_counts. cbn [first_match].
  destruct (datefstr_year default_day (datetimeformat loc) l)
    as [[x|e] r] eqn:E1; apply datefstr_year_leap in E1.
  { eexists. split; [left; reflexivity | exact E1]. }
  destruct e; try exact I. subst r.
  destruct (datetimefstr (longdatetimeformat loc) l)
    as [[x|e] r] eqn:E2; apply datetimefstr_exact in E2.
  { eexists. split; [right; left; reflexivity | exact E2]. }
  destruct e; try exact I. subst r.
  destruct (timefstr_day default_day (timeformat loc) l)
    as [[x|e] r] eqn:E3; apply timefstr_day_exact in E3.
  { eexists. split; [right; right; left; reflexivity | exact E3]. }
  destruct e; try exact I. subst r.
  destruct (datefstr_year default_day (dateformat loc) l)
    as [[x|e] r] eqn:E4; apply datefstr_year_leap in E4.
  { eexists. split; [right; right; right; left; reflexivity | exact E4]. }
  destruct e; try exact I. subst r.
  destruct (datetimefstr (longdateformat loc) l)
    as [[x|e] r] eqn:E5; apply datetimefstr_exact in E5.
  { eexists. split; [do 4 right; left; reflexivity | exact E5]. }
  destruct e; try exact I. exact E5.
Qed.

End Leap.

(** X6.  A first token that parses as a time, in front of tokens the
    two date-time grammars do not parse, is resolved by the time grammar:
    the result is that hour and minute on the date of [default_day], it is
    not all-day, and exactly that token is consumed.  The date-only
    grammars are not asked. *)
Theorem time_token_resolved_as_time
        (loc : locale) (default_day : datetime) (tok : string)
        (rest : list string) (st : list Z) (t : time) :
  valid_datetime default_day = true ->
  datetime_strptime
    (join " " (firstn (count_spaces (datetimeformat loc) + 1)
                      (tok :: rest))) (datetimeformat loc) = None ->
  datetime_strptime
    (join " " (firstn (count_spaces (longdatetimeformat loc) + 1)
                      (tok :: rest))) (longdatetimeformat loc) = None ->
  time_strptime tok (timeformat loc) = Some st ->
  time_of_args (slice 3 5 st) = Ok t ->
  guessdatetimefstr loc default_day (tok :: rest)
  = (Ok (combine (dt_date default_day)
                 (mktime (t_hour t) (t_minute t) 0 0), false), rest).
Proof.
  intros Vd N1 N2 Ht Tt.
  unfold guessdatetimefstr, grammars. cbn [first_match].
  unfold datefstr_year at 1. unfold datetimefstr at 1.
  unfold slice at 1. rewrite Nat.sub_0_r. simpl skipn. rewrite N1.
  unfold datetimefstr at 1.
  unfold slice at 1. rewrite Nat.sub_0_r. simpl skipn. rewrite N2.
  unfold timefstr_day, timefstr. rewrite Ht, Tt.
  destruct (time_of_hour_minute _ Tt) as (Vt & _).
  destruct (@date_and_time_valid default_day t Vd Vt) as (z & Z & ->).
  rewrite Z. reflexivity.
Qed.

Lemma first_match_cons (fn : parser datetime) (all_day : bool)
      (gs : list (parser datetime * bool)) (l : list string) :
  first_match ((fn, all_day) :: gs) l =
  match fn l with
  | (Ok dtstart, rest) => (Ok (dtstart, all_day), rest)
  | (Raise ValueError, rest) => first_match gs rest
  | (Raise e, rest) => (Raise e, rest)
  end.
Proof. reflexivity. Qed.

(** X7.  Tokens that the short date-time format parses are consumed,
    and the resolver tries to put their month, day, hour and minute into
    the year of [default_day], dropping the parsed year and seconds.
    When that date exists, it is the result, not all-day.  When it does
    not (29 February in a reference year that is no leap year), the
    resolver goes on with the other grammars on what is left of the
    list. *)
Theorem short_format_gets_reference_year
        (loc : locale) (default_day x : datetime) (l : list string) :
  let parts := (count_spaces (datetimeformat loc) + 1)%nat in
  (parts <= List.length l)%nat ->
  datetime_strptime (join " " (firstn parts l)) (datetimeformat loc)
  = Some x ->
  match new_datetime (dt_year default_day) (d_month (dt_date x))
                     (d_day (dt_date x)) (t_hour (dt_time x))
                     (t_minute (dt_time x)) 0 0 with
  | Ok y =>
      guessdatetimefstr loc default_day l = (Ok (y, false), skipn parts l)
  | Raise _ =>
      guessdatetimefstr loc default_day l
      = first_match (List.tl (grammars loc default_day)) (skipn parts l)
  end.
Proof.
  intros parts L S.
  assert (E : datefstr_year default_day (datetimeformat loc) l
              = (new_datetime (dt_year default_day) (d_month (dt_date x))
                   (d_day (dt_date x)) (t_hour (dt_time x))
                   (t_minute (dt_time x)) 0 0, skipn parts l)).
  { unfold datefstr_year, datetimefstr.
    unfold slice at 1. rewrite Nat.sub_0_r. simpl skipn.
    fold parts. rewrite S, (pop_front_enough _ L). reflexivity. }
  unfold guessdatetimefstr, grammars. simpl List.tl.
  rewrite first_match_cons, E.
  destruct (new_datetime _ _ _ _ _ _ _) as [y|e] eqn:N; [reflexivity|].
  unfold new_datetime in N.
  destruct (valid_datetime _); [discriminate|].
  inversion N; subst. reflexivity.
Qed.

(** X8.  On an empty command line [construct_event] raises
    [IndexError]: the start resolution runs into [date_list[0]] of the
    time grammar, so the input is not reported as unparseable, no
    [FatalError] is raised and no event is built. *)
Theorem empty_command_line (loc : locale) (default_timezone : tzinfo)
        (o : options) :
  construct_event [] loc default_timezone o
  = mkoutcome (Raise IndexError) [] [].
Proof.
  unfold construct_event. rewrite guessdatetimefstr_nil. reflexivity.
Qed.

End Resolver.

(* ================================================================== *)
(** * Errors, all-day defaults and recurrence in the assembler *)
(* ================================================================== *)

Section Reports.

Context {X : Externals}.

(** ** [FatalError] comes with its message *)

Lemma new_datetime_raise y m d h mi s us e :
  new_datetime y m d h mi s us = Raise e -> e = ValueError.
Proof.
  unfold new_datetime. destruct (valid_datetime _); [discriminate|].
  intros H. inversion H. reflexivity.
Qed.

Lemma datetime_of_args_raise (args : list Z) (e : exn) :
  datetime_of_args args = Raise e -> e <> FatalError.
Proof.
  unfold datetime_of_args.
  destruct args as [|y [|m [|d [|h [|mi [|s [|us [|? ?]]]]]]]];
    intros H; try (inversion H; discriminate);
    apply new_datetime_raise in H; subst; discriminate.
Qed.

Lemma time_of_args_raise (args : list Z) (e : exn) :
  time_of_args args = Raise e -> e <> FatalError.
Proof.
  unfold time_of_args, new_time.
  destruct args as [|h [|m [|s [|us [|? ?]]]]];
    try match goal with
        | |- (if ?v then _ else _) = _ -> _ => destruct v
        end; intros H; inversion H; discriminate.
Qed.

Lemma add_timedelta_raise x days minutes e :
  add_timedelta x days minutes = Raise e -> e = OverflowError.
Proof.
  unfold add_timedelta, shift_days.
  destruct (0 <=? _).
  - destruct (iter_opt _ next_day _); intros H; inversion H. reflexivity.
  - destruct (iter_opt _ prev_day _); intros H; inversion H. reflexivity.
Qed.

Lemma timefstr_not_fatal fmt l e rest :
  timefstr fmt l = (Raise e, rest) -> e <> FatalError.
Proof.
  unfold timefstr. destruct l as [|tok l'].
  - intros H. inversion H. discriminate.
  - destruct (time_strptime tok fmt) as [st|].
    + destruct (time_of_args (slice 3 5 st)) eqn:T; intros H;
        inversion H; subst. eapply time_of_args_raise. exact T.
    + intros H. inversion H. discriminate.
Qed.

Lemma datetimefstr_not_fatal fmt l e rest :
  datetimefstr fmt l = (Raise e, rest) -> e <> FatalError.
Proof.
  intros H. apply datetimefstr_raise in H.
  destruct H as [(-> & _)|(-> & _)]; discriminate.
Qed.

Lemma first_match_not_fatal gs l e rest :
  (forall fn ad, In (fn, ad) gs ->
                 forall l' e' rest', fn l' = (Raise e', rest') ->
                                     e' <> FatalError) ->
  first_match gs l = (Raise e, rest) -> e <> FatalError.
Proof.
  revert l. induction gs as [|[fn ad] gs IH]; intros l F H; simpl in H.
  - inversion H. discriminate.
  - destruct (fn l) as [[y|e'] r'] eqn:E; [discriminate|].
    pose proof (F fn ad (or_introl eq_refl) _ _ _ E) as N.
    destruct e'; try (inversion H; subst; exact N).
    eapply IH; [|exact H].
    intros fn' ad' I. apply (F fn' ad'). right. exact I.
Qed.

Lemma guessdatetimefstr_not_fatal loc d l e rest :
  guessdatetimefstr loc d l = (Raise e, rest) -> e <> FatalError.
Proof.
  apply first_match_not_fatal. intros fn ad I l' e' rest'.
  unfold grammars in I. simpl in I.
  destruct I as [I|[I|[I|[I|[I|[]]]]]]; inversion I; subst.
  - unfold datefstr_year.
    destruct (datetimefstr _ l') as [[y|x] r] eqn:E; intros H;
      inversion H; subst.
    + match goal with
      | N : new_datetime _ _ _ _ _ _ _ = Raise _ |- _ =>
          apply new_datetime_raise in N; subst; discriminate
      end.
    + eapply datetimefstr_not_fatal. exact E.
  - apply datetimefstr_not_fatal.
  - unfold timefstr_day.
    destruct (timefstr _ l') as [[y|x] r] eqn:E; intros H;
      inversion H; subst.
    + match goal with
      | N : new_datetime _ _ _ _ _ _ _ = Raise _ |- _ =>
          apply new_datetime_raise in N; subst; discriminate
      end.
    + eapply timefstr_not_fatal. exact E.
  - unfold datefstr_year.
    destruct (datetimefstr _ l') as [[y|x] r] eqn:E; intros H;
      inversion H; subst.
    + match goal with
      | N : new_datetime _ _ _ _ _ _ _ = Raise _ |- _ =>
          apply new_datetime_raise in N; subst; discriminate
      end.
    + eapply datetimefstr_not_fatal. exact E.
  - apply datetimefstr_not_fatal.
Qed.

Lemma resolve_end_not_fatal loc o s ad l e rest :
  resolve_end loc o s ad l = (Raise e, rest) -> e <> FatalError.
Proof.
  unfold resolve_end.
  destruct (guessdatetimefstr loc s l) as [[[x b]|x] r] eqn:E;
    [discriminate|].
  pose proof (guessdatetimefstr_not_fatal _ _ _ E) as N.
  destruct x; try (intros H; inversion H; subst; exact N).
  destruct ad; intros H; inversion H as [[H1 H2]];
    apply add_timedelta_raise in H1; subst; discriminate.
Qed.

Lemma repair_before_start_not_fatal s e0 e :
  repair_before_start s e0 = Raise e -> e <> FatalError.
Proof.
  unfold repair_before_start, bind. intros H.
  destruct (dt_lt e0 s).
  - destruct (datetime_of_args _) as [e1|x] eqn:D.
    + destruct (dt_lt e1 s); [|discriminate].
      apply add_timedelta_raise in H. subst. discriminate.
    + inversion H; subst. eapply datetime_of_args_raise. exact D.
  - destruct (dt_lt e0 s); [|discriminate].
    apply add_timedelta_raise in H. subst. discriminate.
Qed.

Lemma repair_all_day_not_fatal s e0 e :
  repair_all_day s e0 = Raise e -> e <> FatalError.
Proof.
  unfold repair_all_day, bind. intros H.
  destruct (add_timedelta e0 1 0) as [e1|x] eqn:A.
  2:{ inversion H; subst. apply add_timedelta_raise in A. subst.
      discriminate. }
  destruct ((dt_year e1 =? dt_year today)
            && negb (dt_year s =? dt_year today)).
  - destruct (datetime_of_args (dt_year s :: _)) as [e2|x] eqn:D.
    + destruct (dt_lt e2 s); [|discriminate].
      eapply datetime_of_args_raise. exact H.
    + inversion H; subst. eapply datetime_of_args_raise. exact D.
  - destruct (dt_lt e1 s); [|discriminate].
    eapply datetime_of_args_raise. exact H.
Qed.

Lemma repair_not_fatal ad s e0 e :
  repair ad s e0 = Raise e -> e <> FatalError.
Proof.
  unfold repair, bind. intros H. destruct ad.
  - destruct (repair_all_day s e0) as [e1|x] eqn:A.
    + eapply repair_before_start_not_fatal. exact H.
    + inversion H; subst. eapply repair_all_day_not_fatal. exact A.
  - eapply repair_before_start_not_fatal. exact H.
Qed.

Lemma first_parse_not_fatal fs l e :
  (forall fn, In fn fs ->
              forall l' e' rest', fn l' = (Raise e', rest') ->
                                  e' <> FatalError) ->
  first_parse fs l = Raise e -> e <> FatalError.
Proof.
  revert l. induction fs as [|fn fs IH]; intros l F H; simpl in H.
  - discriminate.
  - destruct (fn l) as [[y|e'] r'] eqn:E; [discriminate|].
    pose proof (F fn (or_introl eq_refl) _ _ _ E) as N.
    destruct e'; try (inversion H; subst; exact N).
    eapply IH; [|exact H]. intros fn' I. apply F. right. exact I.
Qed.

(** What the recurrence step hands to [logger.fatal]: one message when
    it raises [FatalError], nothing otherwise. *)
Lemma recurrence_report loc o :
  (fst (recurrence loc o) = Raise FatalError /\
   exists msg, snd (recurrence loc o) = [msg])
  \/
  (fst (recurrence loc o) <> Raise FatalError /\
   snd (recurrence loc o) = []).
Proof.
  unfold recurrence.
  destruct (repeat o) as [rep|]; [|right; split; [discriminate|reflexivity]].
  destruct (negb (String.eqb rep "") && negb (String.eqb rep "none"));
    [|right; split; [discriminate|reflexivity]].
  destruct (string_in rep _);
    [|left; split; [reflexivity|eexists; reflexivity]].
  destruct (until o) as [[|u us]|];
    try (right; split; [discriminate|reflexivity]).
  destruct (first_parse _ (u :: us)) as [[d|]|e] eqn:E.
  - right. split; [discriminate|reflexivity].
  - left. split; [reflexivity|eexists; reflexivity].
  - right. split; [|reflexivity]. simpl. intros H. inversion H; subst.
    eapply first_parse_not_fatal; [|exact E|reflexivity].
    intros fn I l' e' rest'. simpl in I.
    destruct I as [I|[I|[I|[I|[I|[]]]]]]; subst;
      first [apply datetimefstr_not_fatal | apply timefstr_not_fatal].
Qed.

(** X9.  [construct_event] raises [FatalError] exactly when it has
    handed a message to [logger.fatal], and then exactly one; every other
    outcome, an event or another exception, comes with nothing
    reported. *)
Theorem fatal_error_comes_with_its_message
        (date_list : list string) (loc : locale)
        (default_timezone : tzinfo) (o : options) :
  let out := construct_event date_list loc default_timezone o in
  (returned out = Raise FatalError /\ exists msg, fatal_log out = [msg])
  \/
  (returned out <> Raise FatalError /\ fatal_log out = []).
Proof.
  cbv zeta. unfold construct_event.
  destruct (guessdatetimefstr loc import_today date_list)
    as [[[s ad]|e] l1] eqn:E1.
  2:{ pose proof (guessdatetimefstr_not_fatal _ _ _ E1) as N.
      destruct e; simpl;
        first [ left; split; [reflexivity|eexists; reflexivity]
              | right; split; [discriminate|reflexivity]
              | congruence ]. }
  destruct (resolve_end loc o s ad l1) as [[e0|e] l2] eqn:E2.
  2:{ right. simpl. split; [|reflexivity].
      intros H. inversion H; subst.
      exact (resolve_end_not_fatal _ _ _ _ _ E2 eq_refl). }
  destruct (repair ad s e0) as [e|x] eqn:E3.
  2:{ right. simpl. split; [|reflexivity].
      intros H. inversion H; subst.
      exact (repair_not_fatal _ _ _ E3 eq_refl). }
  destruct (localize_window default_timezone ad s e l2)
    as [[[ws we]|x] l3] eqn:E4.
  2:{ right. simpl. split; [|reflexivity].
      unfold localize_window in E4. destruct ad; [discriminate|].
      destruct l2 as [|tok rest]; [inversion E4; discriminate|].
      destruct (pytz_timezone tok); discriminate. }
  destruct (split_text o _) as [summary descr].
  pose proof (recurrence_report loc o) as R.
  destruct (recurrence loc o) as [[rr|x] log]; simpl in *.
  - destruct R as [[R _]|[_ ->]]; [discriminate|].
    right. split; [discriminate|reflexivity].
  - destruct R as [[R [msg ->]]|[R ->]].
    + left. inversion R; subst. split; [reflexivity|eexists; reflexivity].
    + right. split; [|reflexivity].
      intros H. apply R. inversion H; subst. reflexivity.
Qed.

End Reports.

Section Defaults.

Context {X : Externals}.

Lemma hour_minute_total (h m : Z) :
  0 <= h < 24 -> 0 <= m < 60 ->
  (h * 60 + m + 0) / 1440 = 0 /\
  (h * 60 + m + 0) mod 1440 / 60 = h /\
  (h * 60 + m + 0) mod 60 = m.
Proof.
  intros Hh Hm.
  assert (S : 0 <= h * 60 + m + 0 < 1440) by lia.
  rewrite (Z.div_small _ _ S), (Z.mod_small _ 1440 S).
  replace (h * 60 + m + 0) with (m + h * 60) by lia.
  rewrite Z.div_add, Z.mod_add by lia.
  rewrite (Z.div_small m 60), (Z.mod_small m 60) by lia. lia.
Qed.

Lemma add_nothing (x : datetime) :
  valid_time (dt_time x) = true -> add_timedelta x 0 0 = Ok x.
Proof.
  intros Vt. apply valid_time_spec in Vt. unfold add_timedelta.
  destruct (hour_minute_total (h := t_hour (dt_time x))
              (m := t_minute (dt_time x))) as (D & Hh & Hm); try tauto.
  rewrite D, Hh, Hm. simpl.
  destruct x as [d [h m s us]]. reflexivity.
Qed.

Lemma add_one_day_ok (x : datetime) (d' : date) :
  valid_time (dt_time x) = true -> next_day (dt_date x) = Some d' ->
  add_timedelta x 1 0 = Ok (mkdt d' (dt_time x)).
Proof.
  intros Vt N. apply valid_time_spec in Vt. unfold add_timedelta.
  destruct (hour_minute_total (h := t_hour (dt_time x))
              (m := t_minute (dt_time x))) as (D & Hh & Hm); try tauto.
  rewrite D, Hh, Hm. unfold shift_days. simpl. rewrite N.
  destruct (dt_time x) as [h m s us]. reflexivity.
Qed.

Lemma new_datetime_ok (y m d h mi s us : Z) :
  valid_date (mkdate y m d) = true ->
  valid_time (mktime h mi s us) = true ->
  new_datetime y m d h mi s us = Ok (mkdt (mkdate y m d) (mktime h mi s us)).
Proof.
  intros Vd Vt. unfold new_datetime, valid_datetime. simpl.
  rewrite Vd, Vt. reflexivity.
Qed.

(** An all-day start with itself as end (the default length of one
    day): the repaired end is on the next day. *)
Lemma repair_one_day (s : datetime) (d' : date) :
  valid_datetime s = true -> next_day (dt_date s) = Some d' ->
  exists e : datetime, repair true s s = Ok e /\ dt_date e = d'.
Proof.
  intros V N. unfold valid_datetime in V.
  apply andb_prop in V. destruct V as [Vd Vt].
  pose proof (add_one_day_ok s Vt N) as A.
  pose proof (next_day_later _ N) as Later.
  assert (L1 : dt_lt (mkdt d' (dt_time s)) s = false)
    by (apply dt_lt_later_date; exact Later).
  unfold repair, repair_all_day. rewrite A. cbn [bind].
  destruct ((dt_year (mkdt d' (dt_time s)) =? dt_year today)
            && negb (dt_year s =? dt_year today)) eqn:C.
  - apply andb_prop in C. destruct C as [C1 C2].
    apply Z.eqb_eq in C1. apply negb_true_iff in C2.
    apply Z.eqb_neq in C2. unfold dt_year in C1, C2. simpl in C1.
    destruct s as [[y m d] [h mi sec us]]. simpl in *.
    apply valid_date_spec in Vd. simpl in Vd.
    apply valid_time_spec in Vt. simpl in Vt.
    unfold next_day in N. simpl in N.
    destruct (d <? days_in_month y m);
      [inversion N; subst; simpl in C1; congruence|].
    destruct (Z.ltb_spec m 12);
      [inversion N; subst; simpl in C1; congruence|].
    destruct (Z.ltb_spec y 9999); [|discriminate].
    inversion N; subst d'. clear N. assert (m = 12) by lia. subst m.
    unfold slice, dt_year. simpl.
    rewrite new_datetime_ok.
    2:{ apply valid_date_spec. simpl.
        change (days_in_month y 1) with 31. lia. }
    2:{ apply valid_time_spec. simpl. lia. }
    cbn [bind].
    assert (L2 : dt_lt (mkdt (mkdate y 1 1) (mktime h mi sec 0))
                       (mkdt (mkdate y 12 d) (mktime h mi sec us)) = true).
    { unfold dt_lt, dt_cmp, date_cmp. simpl. rewrite Z.compare_refl.
      reflexivity. }
    rewrite L2. unfold dt_year. simpl.
    rewrite new_datetime_ok.
    2:{ apply valid_date_spec. simpl.
        change (days_in_month (y + 1) 1) with 31. lia. }
    2:{ apply valid_time_spec. simpl. lia. }
    cbn [bind]. unfold repair_before_start.
    assert (L3 : dt_lt (mkdt (mkdate (y + 1) 1 1) (mktime h mi sec 0))
                       (mkdt (mkdate y 12 d) (mktime h mi sec us)) = false).
    { apply dt_lt_later_date. unfold date_cmp. simpl.
      replace (y ?= y + 1) with Lt; [reflexivity|].
      symmetry. apply Z.compare_lt_iff. lia. }
    rewrite L3. cbn [bind]. rewrite L3.
    eexists. split; reflexivity.
  - cbn [bind]. rewrite L1. cbn [bind]. unfold repair_before_start.
    rewrite L1. cbn [bind]. rewrite L1.
    eexists. split; reflexivity.
Qed.

(** X10.  An all-day start followed by tokens no grammar parses, with
    the default length of one day: the event runs from the date of the
    start to the next day, its exclusive end, also across the end of a
    month or a year and whatever the year of the clock; the tokens are
    left as text.  Only the recurrence step can still raise. *)
Theorem all_day_event_of_one_day
        (date_list : list string) (loc : locale)
        (default_timezone : tzinfo) (o : options)
        (s : datetime) (l1 l2 : list string) (d' : date) :
  (forall (str fmt : string) (x : datetime),
      datetime_strptime str fmt = Some x -> valid_datetime x = true) ->
  guessdatetimefstr loc import_today date_list = (Ok (s, true), l1) ->
  guessdatetimefstr loc s l1 = (Raise ValueError, l2) ->
  defaultdatelen o = 1 ->
  next_day (dt_date s) = Some d' ->
  construct_event date_list loc default_timezone o =
  match recurrence loc o with
  | (Ok rr, log) =>
      mkoutcome (Ok (assembled o (Day (dt_date s)) (Day d') rr l2)) l2 log
  | (Raise x, log) => mkoutcome (Raise x) l2 log
  end.
Proof.
  intros V H1 H2 D N.
  pose proof (@guessdatetimefstr_valid _ V _ _ _ _ _ _ H1) as Vs.
  assert (Vt : valid_time (dt_time s) = true).
  { unfold valid_datetime in Vs. apply andb_prop in Vs. tauto. }
  destruct (@repair_one_day s d' Vs N) as (e & R & E). subst d'.
  eapply construct_event_steps.
  - exact H1.
  - unfold resolve_end. rewrite H2, D. simpl.
    rewrite (add_nothing s Vt). reflexivity.
  - exact R.
  - reflexivity.
Qed.

(** ** The recurrence rule of a returned event *)

Lemma assembled_rrule o ws we rr l3 :
  get "rrule" (assembled o ws we rr l3) = rr.
Proof.
  unfold assembled. rewrite !get_add. unfold add_opt.
  destruct rr as [p|].
  - rewrite get_add, !get_add_if_other by reflexivity. reflexivity.
  - rewrite !get_add_if_other by reflexivity. reflexivity.
Qed.

(** X11.  A returned event has a recurrence rule exactly when [repeat]
    is switched on; the rule then carries the [repeat] keyword, which is
    one of the four frequencies, and it carries an until-date exactly
    when [until] holds tokens.  With [repeat] off, [until] is ignored,
    parseable or not. *)
Theorem recurrence_rule_of_event
        (date_list : list string) (loc : locale)
        (default_timezone : tzinfo) (o : options) (ev : event) :
  returned (construct_event date_list loc default_timezone o) = Ok ev ->
  (repeat_off o = true -> get "rrule" ev = None)
  /\
  (repeat_off o = false ->
   exists (rep : string) (u : option datetime),
     repeat o = Some rep /\
     string_in rep ["daily"; "weekly"; "monthly"; "yearly"] = true /\
     get "rrule" ev = Some (PRRule rep u) /\
     (u = None <-> nonempty (until o) = false)).
Proof.
  intros H. apply construct_event_returns in H.
  destruct H as (s & ad & l1 & e0 & l2 & e & ws & we & l3 & rr & log
                 & _ & _ & _ & _ & R & _ & ->).
  rewrite assembled_rrule. unfold recurrence in R. unfold repeat_off.
  destruct (repeat o) as [rep|].
  2:{ inversion R; subst. split; [reflexivity|discriminate]. }
  destruct (String.eqb rep ""); cbn [negb andb orb] in R |- *.
  { inversion R; subst. split; [reflexivity|discriminate]. }
  destruct (String.eqb rep "none"); cbn [negb andb orb] in R |- *.
  { inversion R; subst. split; [reflexivity|discriminate]. }
  split; [discriminate|]. intros _.
  destruct (string_in rep _) eqn:F; [|discriminate].
  unfold nonempty.
  destruct (until o) as [[|u us]|].
  - inversion R; subst. exists rep, None. repeat split; reflexivity || exact F.
  - destruct (first_parse _ (u :: us)) as [[d|]|x]; try discriminate.
    inversion R; subst. exists rep, (Some d).
    repeat split; try reflexivity; try exact F; discriminate.
  - inversion R; subst. exists rep, None. repeat split; reflexivity || exact F.
Qed.

End Defaults.

(* ================================================================== *)
(** * Dates from strings, identifiers and the quick constructor *)
(* ================================================================== *)

Section Quick.

Context {X : Externals}.

Lemma days_in_month_1900 (y m : Z) :
  days_in_month 1900 m <= days_in_month y m.
Proof.
  unfold days_in_month. change (is_leap 1900) with false.
  destruct (m =? 2); [destruct (is_leap y); lia|].
  destruct ((m =? 4) || (m =? 6) || (m =? 9) || (m =? 11)); lia.
Qed.

(** X12.  [datefstr], with a [strptime] that returns datetimes and a
    valid clock: a string the long format parses gives that date; a
    string only the short format parses gives its month and day in the
    current year when the parsed year is the placeholder 1900, and the
    parsed date otherwise; a string neither format parses raises
    [InvalidDate] naming it.  Nothing else is raised, and every date
    returned exists. *)
Theorem datefstr_cases (datestr dateformat longdateformat : string) :
  (forall (str fmt : string) (x : datetime),
      datetime_strptime str fmt = Some x -> valid_datetime x = true) ->
  valid_datetime today = true ->
  match datefstr datestr dateformat longdateformat with
  | Returned d =>
      valid_date d = true /\
      ((exists x, datetime_strptime datestr longdateformat = Some x /\
                  d = dt_date x)
       \/
       (datetime_strptime datestr longdateformat = None /\
        exists x, datetime_strptime datestr dateformat = Some x /\
                  d = mkdate (if dt_year x =? 1900 then dt_year today
                              else dt_year x)
                             (d_month (dt_date x)) (d_day (dt_date x))))
  | InvalidDate message =>
      message = msg_invalid_date datestr /\
      datetime_strptime datestr longdateformat = None /\
      datetime_strptime datestr dateformat = None
  | Propagated _ => False
  end.
Proof.
  intros V Vt. unfold datefstr.
  destruct (datetime_strptime datestr longdateformat) as [x|] eqn:L.
  { pose proof (V _ _ _ L) as Vx. unfold valid_datetime in Vx.
    apply andb_prop in Vx. split; [tauto|]. left. exists x. auto. }
  destruct (datetime_strptime datestr dateformat) as [x|] eqn:S.
  2:{ auto. }
  pose proof (V _ _ _ S) as Vx. unfold valid_datetime in Vx, Vt.
  apply andb_prop in Vx. destruct Vx as [Vxd Vxt].
  apply andb_prop in Vt. destruct Vt as [Vtd _].
  unfold dt_year. simpl nth.
  destruct (d_year (dt_date x) =? 1900) eqn:Y.
  - apply Z.eqb_eq in Y.
    assert (Vn : valid_date (mkdate (d_year (dt_date today))
                                    (d_month (dt_date x))
                                    (d_day (dt_date x))) = true).
    { apply valid_date_spec in Vxd. apply valid_date_spec in Vtd.
      apply valid_date_spec. simpl. rewrite Y in Vxd.
      pose proof (days_in_month_1900 (d_year (dt_date today))
                    (d_month (dt_date x))). lia. }
    unfold slice. simpl.
    rewrite new_datetime_ok.
    + simpl. split; [exact Vn|].
      right. split; [reflexivity|]. exists x.
      split; [reflexivity|]. rewrite Y. reflexivity.
    + exact Vn.
    + apply valid_time_spec in Vxt. apply valid_time_spec. simpl. lia.
  - split; [exact Vxd|]. right. split; [reflexivity|]. exists x.
    split; [reflexivity|]. rewrite Y. destruct (dt_date x). reflexivity.
Qed.

(** ** The identifier *)

Lemma length_string_of_list_ascii (l : list ascii) :
  String.length (string_of_list_ascii l) = List.length l.
Proof. induction l as [|c l IH]; simpl; [reflexivity | now rewrite IH]. Qed.

Lemma drawn_from_map (alphabet : string) (f : nat -> ascii)
      (l : list nat) :
  (forall i, char_in (f i) alphabet = true) ->
  drawn_from alphabet (string_of_list_ascii (List.map f l)) = true.
Proof.
  intros F. induction l as [|i l IH]; simpl; [reflexivity|].
  rewrite F, IH. reflexivity.
Qed.

(** X13.  The identifier has 36 characters, and when [random.choice]
    returns an element of the sequence it is given, each of them is an
    upper-case letter or a digit. *)
Theorem generate_random_uid_shape :
  String.length generate_random_uid = 36%nat
  /\
  ((forall (i : nat) (seq : string),
       seq <> EmptyString -> char_in (random_choice i seq) seq = true) ->
   drawn_from "ABCDEFGHIJKLMNOPQRSTUVWXYZ0123456789" generate_random_uid
   = true).
Proof.
  unfold generate_random_uid. split.
  - rewrite length_string_of_list_ascii, length_map, length_seq.
    reflexivity.
  - intros C. apply drawn_from_map. intros i. apply C. discriminate.
Qed.

(** ** The quick constructor *)

Lemma add_60_on_the_hour (x y : datetime) :
  add_timedelta x 0 60 = Ok y -> t_minute (dt_time x) = 0 ->
  t_minute (dt_time y) = 0 /\
  t_second (dt_time y) = t_second (dt_time x) /\
  t_microsecond (dt_time y) = t_microsecond (dt_time x).
Proof.
  unfold add_timedelta. intros H M.
  destruct (shift_days _ _) as [d|]; [|discriminate].
  inversion H; subst. simpl. rewrite M.
  replace (t_hour (dt_time x) * 60 + 0 + 60)
    with ((t_hour (dt_time x) + 1) * 60) by lia.
  rewrite Z.mod_mul by lia. auto.
Qed.

(** X14.  [new_event] without start and end: the start is the hour
    after the current one, on the full hour, the end is 60 minutes after
    the start, both localized to the timezone if one is given, the summary
    is the given one or 'New Event', and the event holds exactly the
    properties dtstart, dtend, dtstamp, summary and uid. *)
Theorem new_event_defaults
        (summary : option string) (timezone : option tzinfo)
        (now : datetime) (ev : event) :
  new_event None None summary timezone now = Ok ev ->
  exists hour start finish : datetime,
    datetime_of_args (slice 0 4 (timetuple today)) = Ok hour /\
    dt_date hour = dt_date today /\
    t_hour (dt_time hour) = t_hour (dt_time today) /\
    add_timedelta hour 0 60 = Ok start /\
    add_timedelta start 0 60 = Ok finish /\
    t_minute (dt_time start) = 0 /\
    t_second (dt_time start) = 0 /\
    t_microsecond (dt_time start) = 0 /\
    get "dtstart" ev = Some (PWhen (localize timezone start)) /\
    get "dtend" ev = Some (PWhen (localize timezone finish)) /\
    get "dtstamp" ev = Some (PWhen (Naive now)) /\
    get "summary" ev = Some (PText (match summary with
                                    | Some s => s
                                    | None => "New Event"
                                    end)) /\
    List.map fst ev = ["dtstart"; "dtend"; "dtstamp"; "summary"; "uid"].
Proof.
  unfold new_event. intros H.
  destruct (datetime_of_args (slice 0 4 (timetuple today)))
    as [hour|e] eqn:E1; [|discriminate].
  cbn [bind] in H.
  destruct (add_timedelta hour 0 60) as [start|e] eqn:E2; [|discriminate].
  cbn [bind] in H.
  destruct (add_timedelta start 0 60) as [finish|e] eqn:E3;
    [|discriminate].
  cbn [bind] in H. inversion H; subst. clear H.
  exists hour, start, finish.
  assert (Hh : hour = mkdt (dt_date today)
                           (mktime (t_hour (dt_time today)) 0 0 0)).
  { unfold slice in E1. simpl in E1. apply new_datetime_valid in E1.
    destruct E1 as [_ ->]. destruct (dt_date today). reflexivity. }
  destruct (add_60_on_the_hour _ E2) as (M & S & U).
  { rewrite Hh. reflexivity. }
  rewrite Hh in S, U. simpl in S, U.
  split; [reflexivity|].
  split; [rewrite Hh; reflexivity|].
  split; [rewrite Hh; reflexivity|].
  repeat split; try assumption; reflexivity.
Qed.

(** X16.  [new_event] does not repair: an end that is given is
    attached as it is, whatever the start, and a start that is given as a
    date or datetime keeps its date. *)
Theorem new_event_keeps_given_end
        (dtstart : option date_like) (e : datetime)
        (summary : option string) (timezone : option tzinfo)
        (now : datetime) (ev : event) :
  new_event dtstart (Some e) summary timezone now = Ok ev ->
  get "dtend" ev = Some (PWhen (localize timezone e))
  /\
  (forall v : date_like,
      dtstart = Some v ->
      exists t : time,
        get "dtstart" ev
        = Some (PWhen (localize timezone (combine (date_of v) t)))).
Proof.
  unfold new_event. intros H.
  destruct (datetime_of_args (slice 0 4 (timetuple today)))
    as [hour|x] eqn:E1; [|discriminate].
  cbn [bind] in H.
  destruct (add_timedelta hour 0 60) as [start|x] eqn:E2; [|discriminate].
  cbn [bind] in H. inversion H; subst. clear H.
  split; [reflexivity|].
  intros v ->. exists (dt_time start). destruct v; reflexivity.
Qed.

End Quick.

Section QuickSucceeds.

Context {X : Externals}.

Lemma next_day_exists (d : date) :
  valid_date d = true -> d <> mkdate 9999 12 31 ->
  exists d' : date, next_day d = Some d'.
Proof.
  intros V N. apply valid_date_spec in V. unfold next_day.
  destruct (Z.ltb_spec (d_day d) (days_in_month (d_year d) (d_month d)));
    [eexists; reflexivity|].
  destruct (Z.ltb_spec (d_month d) 12); [eexists; reflexivity|].
  destruct (Z.ltb_spec (d_year d) 9999); [eexists; reflexivity|].
  exfalso. apply N. destruct d as [y m dd]. simpl in *.
  assert (m = 12) by lia. assert (y = 9999) by lia. subst.
  change (days_in_month 9999 12) with 31 in *.
  assert (dd = 31) by lia. subst. reflexivity.
Qed.

Lemma add_60_early (d : date) (h s us : Z) :
  0 <= h < 23 ->
  add_timedelta (mkdt d (mktime h 0 s us)) 0 60
  = Ok (mkdt d (mktime (h + 1) 0 s us)).
Proof.
  intros Hh. unfold add_timedelta. simpl.
  replace (h * 60 + 0 + 60) with ((h + 1) * 60) by lia.
  assert (S : 0 <= (h + 1) * 60 < 1440) by lia.
  rewrite (Z.div_small _ _ S), (Z.mod_small _ 1440 S).
  rewrite Z.div_mul, Z.mod_mul by lia. reflexivity.
Qed.

Lemma add_60_late (d d' : date) (s us : Z) :
  next_day d = Some d' ->
  add_timedelta (mkdt d (mktime 23 0 s us)) 0 60
  = Ok (mkdt d' (mktime 0 0 s us)).
Proof.
  intros N. unfold add_timedelta, shift_days. simpl. rewrite N.
  reflexivity.
Qed.

(** X15.  With a valid clock, on every day but the last one of the
    calendar, [new_event] without start and end returns an event. *)
Theorem new_event_succeeds
        (summary : option string) (timezone : option tzinfo)
        (now : datetime) :
  valid_datetime today = true ->
  dt_date today <> mkdate 9999 12 31 ->
  exists ev : event, new_event None None summary timezone now = Ok ev.
Proof.
  intros V N. unfold valid_datetime in V.
  apply andb_prop in V. destruct V as [Vd Vt].
  destruct (next_day_exists Vd N) as [d' D].
  apply valid_time_spec in Vt.
  unfold new_event, slice. simpl.
  rewrite new_datetime_ok.
  2:{ destruct (dt_date today). exact Vd. }
  2:{ apply valid_time_spec. simpl. lia. }
  cbn [bind].
  replace (mkdate (d_year (dt_date today)) (d_month (dt_date today))
                  (d_day (dt_date today)))
    with (dt_date today) by (destruct (dt_date today); reflexivity).
  destruct (Z.lt_ge_cases (t_hour (dt_time today)) 22) as [E|L].
  - rewrite add_60_early by lia. cbn [bind].
    rewrite add_60_early by lia. cbn [bind]. eexists. reflexivity.
  - destruct (Z.eq_dec (t_hour (dt_time today)) 22) as [E|E].
    + rewrite E. rewrite add_60_early by lia. cbn [bind].
      rewrite (@add_60_late _ d' _ _ D). cbn [bind]. eexists. reflexivity.
    + assert (E23 : t_hour (dt_time today) = 23) by lia. rewrite E23.
      rewrite (@add_60_late _ d' _ _ D). cbn [bind].
      rewrite add_60_early by lia. cbn [bind]. eexists. reflexivity.
Qed.

(** X17.  An all-day event whose start is not in the year of the clock
    and whose end, made exclusive, is: the end is moved into the year of
    the start, and when that is not before the start it stays there,
    also when its year was typed.  The event then ends in the year in
    which it starts. *)
Theorem all_day_end_moved_to_start_year
        (date_list : list string) (loc : locale)
        (default_timezone : tzinfo) (o : options)
        (s e0 e1 e2 : datetime) (l1 l2 : list string) (ev : event) :
  guessdatetimefstr loc import_today date_list = (Ok (s, true), l1) ->
  resolve_end loc o s true l1 = (Ok e0, l2) ->
  add_timedelta e0 1 0 = Ok e1 ->
  dt_year e1 = dt_year today ->
  dt_year s <> dt_year today ->
  datetime_of_args (dt_year s :: slice 1 6 (timetuple e1)) = Ok e2 ->
  dt_lt e2 s = false ->
  returned (construct_event date_list loc default_timezone o) = Ok ev ->
  get "dtstart" ev = Some (PWhen (Day (dt_date s))) /\
  get "dtend" ev = Some (PWhen (Day (dt_date e2))) /\
  d_year (dt_date e2) = dt_year s.
Proof.
  intros H1 H2 A Y1 Y2 D L H.
  assert (R : repair true s e0 = Ok e2).
  { unfold repair, repair_all_day. rewrite A. cbn [bind].
    apply Z.eqb_eq in Y1. apply Z.eqb_neq in Y2. rewrite Y1, Y2.
    cbn [negb andb]. rewrite D. cbn [bind]. rewrite L. cbn [bind].
    unfold repair_before_start. rewrite L. cbn [bind]. rewrite L.
    reflexivity. }
  pose proof (@construct_event_steps _ date_list loc default_timezone o
                s true l1 e0 l2 e2 (Day (dt_date s)) (Day (dt_date e2)) l2
                H1 H2 R eq_refl) as S.
  rewrite S in H.
  destruct (recurrence loc o) as [[rr|x] log]; [|discriminate].
  simpl in H. inversion H; subst.
  rewrite assembled_dtstart, assembled_dtend.
  repeat split.
  unfold slice in D. simpl in D. apply new_datetime_valid in D.
  destruct D as [_ ->]. reflexivity.
Qed.

End QuickSucceeds.

(* ================================================================== *)
(** * These properties at concrete inputs *)
(* ================================================================== *)

Lemma datetimefstr_takes_its_tokens_witness :
  datetimefstr (X := may2024) "%Y-%m-%d %H:%M"
               ["2024-06-01"; "09:00"; "x"]
  = (Ok (at_ 2024 6 1 9 0), ["x"])
  /\ (2 <= 3)%nat
  /\ ["x"] = skipn 2 ["2024-06-01"; "09:00"; "x"]
  /\ datetime_strptime (Externals := may2024)
       "2024-06-01 09:00" "%Y-%m-%d %H:%M" = Some (at_ 2024 6 1 9 0).
Proof.
  assert (H : datetimefstr (X := may2024) "%Y-%m-%d %H:%M"
                           ["2024-06-01"; "09:00"; "x"]
              = (Ok (at_ 2024 6 1 9 0), ["x"])) by reflexivity.
  split; [exact H|].
  exact (@datetimefstr_takes_its_tokens may2024 "%Y-%m-%d %H:%M"
           ["2024-06-01"; "09:00"; "x"] ["x"] (at_ 2024 6 1 9 0) H).
Defined.

(** One token that holds the blank itself: it parses, and the second
    [pop] finds the list empty. *)
Lemma datetimefstr_failures_witness :
  datetimefstr (X := may2024) "%Y-%m-%d %H:%M" ["2024-06-01 09:00"]
  = (Raise IndexError, [])
  /\ ((IndexError = ValueError /\
       @nil string = ["2024-06-01 09:00"] /\
       datetime_strptime (Externals := may2024)
         "2024-06-01 09:00" "%Y-%m-%d %H:%M" = None)
      \/
      (IndexError = IndexError /\ @nil string = [] /\
       (1 < 2)%nat /\
       datetime_strptime (Externals := may2024)
         "2024-06-01 09:00" "%Y-%m-%d %H:%M" <> None)).
Proof.
  assert (H : datetimefstr (X := may2024) "%Y-%m-%d %H:%M"
                           ["2024-06-01 09:00"]
              = (Raise IndexError, [])) by reflexivity.
  split; [exact H|].
  exact (@datetimefstr_failures may2024 "%Y-%m-%d %H:%M"
           ["2024-06-01 09:00"] [] IndexError H).
Defined.

Lemma resolver_exact_in_leap_year_witness :
  valid_datetime (@import_today may2024) = true
  /\ is_leap (dt_year (@import_today may2024)) = true
  /\ exists k : nat,
      In (k, false) (token_counts iso) /\
      (k <= 3)%nat /\ ["x"] = skipn k ["12-25"; "18:00"; "x"].
Proof.
  assert (V : valid_datetime (@import_today may2024) = true)
    by reflexivity.
  assert (L : is_leap (dt_year (@import_today may2024)) = true)
    by reflexivity.
  split; [exact V|]. split; [exact L|].
  exact (@resolver_exact_in_leap_year may2024 strptime_datetime_valid
           (@import_today may2024) V L iso ["12-25"; "18:00"; "x"]).
Defined.

Lemma time_token_resolved_as_time_witness :
  let d := @import_today may2024 in
  valid_datetime d = true
  /\ datetime_strptime (Externals := may2024) "18:00 x" "%m-%d %H:%M"
     = None
  /\ datetime_strptime (Externals := may2024) "18:00 x" "%Y-%m-%d %H:%M"
     = None
  /\ time_strptime (Externals := may2024) "18:00" "%H:%M"
     = Some [1900; 1; 1; 18; 0; 0]
  /\ time_of_args (slice 3 5 [1900; 1; 1; 18; 0; 0])
     = Ok (mktime 18 0 0 0)
  /\ guessdatetimefstr (X := may2024) iso d ["18:00"; "x"]
     = (Ok (at_ 2024 5 20 18 0, false), ["x"]).
Proof.
  cbv zeta.
  assert (V : valid_datetime (@import_today may2024) = true)
    by reflexivity.
  assert (N1 : datetime_strptime (Externals := may2024) "18:00 x"
                 "%m-%d %H:%M" = None) by reflexivity.
  assert (N2 : datetime_strptime (Externals := may2024) "18:00 x"
                 "%Y-%m-%d %H:%M" = None) by reflexivity.
  assert (T : time_strptime (Externals := may2024) "18:00" "%H:%M"
              = Some [1900; 1; 1; 18; 0; 0]) by reflexivity.
  assert (A : time_of_args (slice 3 5 [1900; 1; 1; 18; 0; 0])
              = Ok (mktime 18 0 0 0)) by reflexivity.
  repeat (split; [assumption|]).
  exact (@time_token_resolved_as_time may2024 iso (@import_today may2024)
           "18:00" ["x"] [1900; 1; 1; 18; 0; 0] (mktime 18 0 0 0)
           V N1 N2 T A).
Defined.

Lemma short_format_gets_reference_year_witness :
  (2 <= 3)%nat
  /\ datetime_strptime (Externals := may2024) "12-25 18:00" "%m-%d %H:%M"
     = Some (at_ 1900 12 25 18 0)
  /\ guessdatetimefstr (X := may2024) iso (@import_today may2024)
                       ["12-25"; "18:00"; "x"]
     = (Ok (at_ 2024 12 25 18 0, false), ["x"]).
Proof.
  assert (L : (2 <= 3)%nat) by lia.
  assert (S : datetime_strptime (Externals := may2024) "12-25 18:00"
                "%m-%d %H:%M" = Some (at_ 1900 12 25 18 0))
    by reflexivity.
  repeat (split; [assumption|]).
  exact (@short_format_gets_reference_year may2024 iso
           (@import_today may2024) (at_ 1900 12 25 18 0)
           ["12-25"; "18:00"; "x"] L S).
Defined.

(** New Year's Eve, all day: the exclusive end is 1 January 2025. *)
Lemma all_day_event_of_one_day_witness :
  guessdatetimefstr (X := may2024) iso (@import_today may2024)
                    ["2024-12-31"; "party"]
  = (Ok (at_ 2024 12 31 0 0, true), ["party"])
  /\ guessdatetimefstr (X := may2024) iso (at_ 2024 12 31 0 0) ["party"]
     = (Raise ValueError, ["party"])
  /\ defaultdatelen plain = 1
  /\ next_day (mkdate 2024 12 31) = Some (mkdate 2025 1 1)
  /\ construct_event (X := may2024) ["2024-12-31"; "party"] iso berlin
                     plain
     = mkoutcome
         (Ok (assembled plain (Day (mkdate 2024 12 31))
                        (Day (mkdate 2025 1 1)) None ["party"]))
         ["party"] [].
Proof.
  assert (H1 : guessdatetimefstr (X := may2024) iso (@import_today may2024)
                 ["2024-12-31"; "party"]
               = (Ok (at_ 2024 12 31 0 0, true), ["party"]))
    by reflexivity.
  assert (H2 : guessdatetimefstr (X := may2024) iso (at_ 2024 12 31 0 0)
                 ["party"] = (Raise ValueError, ["party"]))
    by reflexivity.
  assert (D : defaultdatelen plain = 1) by reflexivity.
  assert (N : next_day (dt_date (at_ 2024 12 31 0 0))
              = Some (mkdate 2025 1 1)) by reflexivity.
  repeat (split; [assumption|]).
  exact (@all_day_event_of_one_day may2024 ["2024-12-31"; "party"] iso
           berlin plain (at_ 2024 12 31 0 0) ["party"] ["party"]
           (mkdate 2025 1 1) strptime_datetime_valid H1 H2 D N).
Defined.

Lemma recurrence_rule_of_event_witness :
  let o := repeating "weekly" in
  let ev := event_of (returned (construct_event (X := may2024)
                                  ["09:00"; "10:00"; "standup"] iso berlin
                                  o)) in
  returned (construct_event (X := may2024) ["09:00"; "10:00"; "standup"]
                            iso berlin o) = Ok ev
  /\ repeat_off o = false
  /\ exists (rep : string) (u : option datetime),
      repeat o = Some rep /\
      string_in rep ["daily"; "weekly"; "monthly"; "yearly"] = true /\
      get "rrule" ev = Some (PRRule rep u) /\
      (u = None <-> nonempty (until o) = false).
Proof.
  cbv zeta.
  assert (H : returned (construct_event (X := may2024)
                          ["09:00"; "10:00"; "standup"] iso berlin
                          (repeating "weekly"))
              = Ok (event_of (returned (construct_event (X := may2024)
                                          ["09:00"; "10:00"; "standup"]
                                          iso berlin
                                          (repeating "weekly")))))
    by reflexivity.
  split; [exact H|]. split; [reflexivity|].
  exact (proj2 (@recurrence_rule_of_event may2024
                  ["09:00"; "10:00"; "standup"] iso berlin
                  (repeating "weekly") _ H) eq_refl).
Defined.

Lemma datefstr_cases_witness :
  valid_datetime (@today may2024) = true
  /\ datefstr (X := may2024) "12-25" "%m-%d" "%Y-%m-%d"
     = Returned (mkdate 2024 12 25)
  /\ valid_date (mkdate 2024 12 25) = true.
Proof.
  assert (V : valid_datetime (@today may2024) = true) by reflexivity.
  split; [exact V|]. split; [reflexivity|].
  exact (proj1 (@datefstr_cases may2024 "12-25" "%m-%d" "%Y-%m-%d"
                  strptime_datetime_valid V)).
Defined.

Lemma get_char_in (n : nat) (s : string) (c : ascii) :
  String.get n s = Some c -> char_in c s = true.
Proof.
  revert n. induction s as [|a s IH]; intros n H; simpl in *.
  - discriminate.
  - destruct n as [|n].
    + inversion H; subst. rewrite Ascii.eqb_refl. reflexivity.
    + rewrite (IH _ H). apply orb_true_r.
Qed.

Lemma get_in_range (n : nat) (s : string) :
  (n < String.length s)%nat -> String.get n s <> None.
Proof.
  revert n. induction s as [|a s IH]; intros n L; simpl in *.
  - lia.
  - destruct n as [|n]; [discriminate|]. apply IH. lia.
Qed.

(** The executable [random.choice] returns an element of its
    sequence. *)
Lemma choice_at_in (i : nat) (seq : string) :
  seq <> EmptyString -> char_in (Strptime.choice_at i seq) seq = true.
Proof.
  intros N. unfold Strptime.choice_at.
  destruct (String.get _ seq) as [c|] eqn:G.
  - eapply get_char_in. exact G.
  - exfalso. revert G. apply get_in_range.
    apply Nat.mod_upper_bound. destruct seq; [congruence|discriminate].
Qed.

Lemma generate_random_uid_shape_witness :
  String.length (generate_random_uid (X := may2024)) = 36%nat
  /\ drawn_from "ABCDEFGHIJKLMNOPQRSTUVWXYZ0123456789"
                (generate_random_uid (X := may2024)) = true.
Proof.
  split.
  - exact (proj1 (@generate_random_uid_shape may2024)).
  - exact (proj2 (@generate_random_uid_shape may2024) choice_at_in).
Defined.

(** At 14:35 the default event runs from 15:00 to 16:00. *)
Lemma new_event_defaults_witness :
  let ev := event_of (new_event (X := may2024) None None None None
                                (_now plain)) in
  new_event (X := may2024) None None None None (_now plain) = Ok ev
  /\ exists hour start finish : datetime,
      datetime_of_args (slice 0 4 (timetuple (@today may2024))) = Ok hour /\
      dt_date hour = dt_date (@today may2024) /\
      t_hour (dt_time hour) = t_hour (dt_time (@today may2024)) /\
      add_timedelta hour 0 60 = Ok start /\
      add_timedelta start 0 60 = Ok finish /\
      t_minute (dt_time start) = 0 /\
      t_second (dt_time start) = 0 /\
      t_microsecond (dt_time start) = 0 /\
      get "dtstart" ev = Some (PWhen (localize None start)) /\
      get "dtend" ev = Some (PWhen (localize None finish)) /\
      get "dtstamp" ev = Some (PWhen (Naive (_now plain))) /\
      get "summary" ev = Some (PText "New Event") /\
      List.map fst ev = ["dtstart"; "dtend"; "dtstamp"; "summary"; "uid"].
Proof.
  cbv zeta.
  assert (H : new_event (X := may2024) None None None None (_now plain)
              = Ok (event_of (new_event (X := may2024) None None None None
                                        (_now plain)))) by reflexivity.
  split; [exact H|].
  exact (@new_event_defaults may2024 None None (_now plain) _ H).
Defined.

Lemma new_event_succeeds_witness :
  valid_datetime (@today may2024) = true
  /\ dt_date (@today may2024) <> mkdate 9999 12 31
  /\ exists ev : event (X := may2024),
      new_event (X := may2024) None None None None (_now plain) = Ok ev.
Proof.
  assert (V : valid_datetime (@today may2024) = true) by reflexivity.
  assert (N : dt_date (@today may2024) <> mkdate 9999 12 31)
    by discriminate.
  split; [exact V|]. split; [exact N|].
  exact (@new_event_succeeds may2024 None None (_now plain) V N).
Defined.

(** An end at 08:00 given with a start on the same day: the start is
    at 15:00 and the end stays at 08:00. *)
Lemma new_event_keeps_given_end_witness :
  let ev := event_of (new_event (X := may2024)
                        (Some (ADate (mkdate 2024 7 1)))
                        (Some (at_ 2024 7 1 8 0)) None None (_now plain)) in
  new_event (X := may2024) (Some (ADate (mkdate 2024 7 1)))
            (Some (at_ 2024 7 1 8 0)) None None (_now plain) = Ok ev
  /\ get "dtstart" ev = Some (PWhen (Naive (at_ 2024 7 1 15 0)))
  /\ get "dtend" ev = Some (PWhen (localize None (at_ 2024 7 1 8 0)))
  /\ dt_lt (at_ 2024 7 1 8 0) (at_ 2024 7 1 15 0) = true.
Proof.
  cbv zeta.
  assert (H : new_event (X := may2024) (Some (ADate (mkdate 2024 7 1)))
                (Some (at_ 2024 7 1 8 0)) None None (_now plain)
              = Ok (event_of (new_event (X := may2024)
                                (Some (ADate (mkdate 2024 7 1)))
                                (Some (at_ 2024 7 1 8 0)) None None
                                (_now plain)))) by reflexivity.
  split; [exact H|]. split; [reflexivity|].
  split; [|reflexivity].
  exact (proj1 (@new_event_keeps_given_end may2024
                  (Some (ADate (mkdate 2024 7 1))) (at_ 2024 7 1 8 0)
                  None None (_now plain) _ H)).
Defined.

(** Typed in 2024: an all-day event from 1 February 2023 to 1 March
    2024.  Its exclusive end is put on 2 March 2023. *)
Lemma all_day_end_moved_to_start_year_witness :
  let tokens := ["2023-02-01"; "2024-03-01"; "trip"] in
  let ev := event_of (returned (construct_event (X := may2024) tokens iso
                                  berlin plain)) in
  guessdatetimefstr (X := may2024) iso (@import_today may2024) tokens
  = (Ok (at_ 2023 2 1 0 0, true), ["2024-03-01"; "trip"])
  /\ resolve_end (X := may2024) iso plain (at_ 2023 2 1 0 0) true
                 ["2024-03-01"; "trip"]
     = (Ok (at_ 2024 3 1 0 0), ["trip"])
  /\ add_timedelta (at_ 2024 3 1 0 0) 1 0 = Ok (at_ 2024 3 2 0 0)
  /\ dt_year (at_ 2024 3 2 0 0) = dt_year (@today may2024)
  /\ dt_year (at_ 2023 2 1 0 0) <> dt_year (@today may2024)
  /\ dt_lt (at_ 2023 3 2 0 0) (at_ 2023 2 1 0 0) = false
  /\ returned (construct_event (X := may2024) tokens iso berlin plain)
     = Ok ev
  /\ get "dtstart" ev = Some (PWhen (Day (mkdate 2023 2 1)))
  /\ get "dtend" ev = Some (PWhen (Day (mkdate 2023 3 2))).
Proof.
  cbv zeta.
  assert (H1 : guessdatetimefstr (X := may2024) iso (@import_today may2024)
                 ["2023-02-01"; "2024-03-01"; "trip"]
               = (Ok (at_ 2023 2 1 0 0, true), ["2024-03-01"; "trip"]))
    by reflexivity.
  assert (H2 : resolve_end (X := may2024) iso plain (at_ 2023 2 1 0 0) true
                 ["2024-03-01"; "trip"]
               = (Ok (at_ 2024 3 1 0 0), ["trip"])) by reflexivity.
  assert (A : add_timedelta (at_ 2024 3 1 0 0) 1 0
              = Ok (at_ 2024 3 2 0 0)) by reflexivity.
  assert (Y1 : dt_year (at_ 2024 3 2 0 0) = dt_year (@today may2024))
    by reflexivity.
  assert (Y2 : dt_year (at_ 2023 2 1 0 0) <> dt_year (@today may2024))
    by discriminate.
  assert (D : datetime_of_args (dt_year (at_ 2023 2 1 0 0)
                                :: slice 1 6 (timetuple (at_ 2024 3 2 0 0)))
              = Ok (at_ 2023 3 2 0 0)) by reflexivity.
  assert (L : dt_lt (at_ 2023 3 2 0 0) (at_ 2023 2 1 0 0) = false)
    by reflexivity.
  assert (H : returned (construct_event (X := may2024)
                          ["2023-02-01"; "2024-03-01"; "trip"] iso berlin
                          plain)
              = Ok (event_of (returned (construct_event (X := may2024)
                                          ["2023-02-01"; "2024-03-01";
                                           "trip"] iso berlin plain))))
    by reflexivity.
  repeat (split; [assumption|]).
  pose proof (@all_day_end_moved_to_start_year may2024
                ["2023-02-01"; "2024-03-01"; "trip"] iso berlin plain
                (at_ 2023 2 1 0 0) (at_ 2024 3 1 0 0) (at_ 2024 3 2 0 0)
                (at_ 2023 3 2 0 0) ["2024-03-01"; "trip"] ["trip"] _
                H1 H2 A Y1 Y2 D L H) as (T1 & T2 & _).
  split; [exact T1 | exact T2].
Defined.
